(** * The queue analyzer of an LLM inference server

    A shallow embedding of [pkg/analyzer] (queueanalyzer.go, types.go and the
    validation file) and the properties of its specification.

    Numbers.  The analyzer computes in Go's [float32].  The embedding is
    written once over an arithmetic interface ([Arith]) and read twice:
    - at [float32], IEEE 754 binary32 with round-to-nearest-even, taken from
      the standard library's [SpecFloat] (24 bits of precision, exponent of
      the infinities 128): this is the program;
    - at [Q], exact rational arithmetic: this is the reading under which the
      algebraic statements of the specification are meant.
    Every operation rounds on its own, as in the code the Go compiler emits
    for amd64; the concrete inputs below are chosen so that contracting a
    product and a sum into one fused operation, which Go permits on other
    targets, leaves their outcome as it is.

    State.  [Solve] overwrites the solved state of the queueing model that
    [qa.Model] and [utils.Model] both point to, and [Size] writes three
    package variables read by the evaluation callbacks.  All of it is
    threaded explicitly as a [World]. *)

From Stdlib Require Import Ascii String Decimal DecimalString DecimalPos DecimalZ.
From Stdlib Require Import ZArith QArith Qminmax Bool List Lia Lqa.
From Stdlib Require Import Floats.SpecFloat.
From stdpp Require Import base list.
Import ListNotations.

Local Open Scope Z_scope.

(* ================================================================== *)
(** * Machine integers *)
(* ================================================================== *)

(** Go's [int] on the 64-bit targets: two's complement, silent wrap-around. *)
Definition wrap64 (z : Z) : Z := (z + 2 ^ 63) mod 2 ^ 64 - 2 ^ 63.

Definition int_sub (a b : Z) : Z := wrap64 (a - b).
Definition int_add (a b : Z) : Z := wrap64 (a + b).

Definition MinInt : Z := - 2 ^ 63.
Definition MaxInt : Z := 2 ^ 63 - 1.

Definition is_int (z : Z) : Prop := MinInt <= z <= MaxInt.

(* ================================================================== *)
(** * binary32 *)
(* ================================================================== *)

Module F32.

Definition prec : Z := 24.
Definition emax : Z := 128.

Definition float32 : Type := spec_float.

Definition NaN : float32 := S754_nan.
Definition PInf : float32 := S754_infinity false.

(** [float32(n)] for an integer [n]: the nearest binary32, ties to even. *)
Definition of_Z (z : Z) : float32 := binary_normalize prec emax z 0 false.

Definition add : float32 -> float32 -> float32 := SFadd prec emax.
Definition sub : float32 -> float32 -> float32 := SFsub prec emax.
Definition mul : float32 -> float32 -> float32 := SFmul prec emax.
Definition div : float32 -> float32 -> float32 := SFdiv prec emax.

(** [x <= y], [x < y], [x == y]: false as soon as one side is a NaN. *)
Definition leb : float32 -> float32 -> bool := SFleb.
Definition ltb : float32 -> float32 -> bool := SFltb.
Definition eqb : float32 -> float32 -> bool := SFeqb.

Definition is_nan (x : float32) : bool :=
  match x with S754_nan => true | _ => false end.

Definition is_zero (x : float32) : bool :=
  match x with S754_zero _ => true | _ => false end.

(** Every value but the NaN. *)
Definition number (x : float32) : Prop := is_nan x = false.

Definition sign_bit (x : float32) : bool :=
  match x with
  | S754_zero s | S754_infinity s | S754_finite s _ _ => s
  | S754_nan => false
  end.

(** The built-ins [min] and [max] at a floating-point type, as the Go
    runtime computes them (runtime/minmax.go, [fmin] and [fmax]): a NaN
    argument gives NaN, and of the two zeros [min] prefers -0 and [max]
    prefers +0. *)
Definition fmin (x y : float32) : float32 :=
  if is_nan y || ltb y x then y
  else if is_nan x || ltb x y || negb (is_zero x) then x
  else S754_zero (sign_bit x || sign_bit y).

Definition fmax (x y : float32) : float32 :=
  if is_nan y || ltb x y then y
  else if is_nan x || ltb y x || negb (is_zero x) then x
  else S754_zero (sign_bit x && sign_bit y).

End F32.

Abbreviation float32 := F32.float32.

(* ================================================================== *)
(** * The arithmetic interface and its two readings *)
(* ================================================================== *)

Class Arith (F : Type) : Type := {
  add : F -> F -> F;
  sub : F -> F -> F;
  mul : F -> F -> F;
  div : F -> F -> F;
  ofInt : Z -> F;            (* the conversion float32(n) of an int n *)
  leb : F -> F -> bool;
  ltb : F -> F -> bool;
  fmin : F -> F -> F;        (* built-in min *)
  fmax : F -> F -> F         (* built-in max *)
}.

#[global] Instance Arith_float32 : Arith float32 := {|
  add := F32.add; sub := F32.sub; mul := F32.mul; div := F32.div;
  ofInt := F32.of_Z;
  leb := F32.leb; ltb := F32.ltb;
  fmin := F32.fmin; fmax := F32.fmax
|}.

Definition Qltb (x y : Q) : bool := negb (Qle_bool y x).
Definition Qfmin (x y : Q) : Q := if Qltb y x then y else x.
Definition Qfmax (x y : Q) : Q := if Qltb x y then y else x.

#[global] Instance Arith_Q : Arith Q := {|
  add := Qplus; sub := Qminus; mul := Qmult; div := Qdiv;
  ofInt := inject_Z;
  leb := Qle_bool; ltb := Qltb;
  fmin := Qfmin; fmax := Qfmax
|}.

Declare Scope arith_scope.
Delimit Scope arith_scope with F.
Infix "+" := add : arith_scope.
Infix "-" := sub : arith_scope.
Infix "*" := mul : arith_scope.
Infix "/" := div : arith_scope.
Infix "<=?" := leb : arith_scope.
Infix "<?" := ltb : arith_scope.

Section Constants.
Context {F : Type} `{Arith F}.

Definition zero : F := ofInt 0.
Definition one : F := ofInt 1.
Definition thousand : F := ofInt 1000.

(** [const Epsilon = float32(0.001)]: the value nearest to 1/1000, which is
    what one correctly rounded division of 1 by 1000 gives. *)
Definition Epsilon : F := (one / thousand)%F.

(** [const StabilitySafetyFraction = float32(0.1)]. *)
Definition StabilitySafetyFraction : F := (one / ofInt 10)%F.

(** [min(a, b, c)] of three arguments is [min(min(a, b), c)]. *)
Definition fmin3 (a b c : F) : F := fmin (fmin a b) c.

End Constants.


(* ================================================================== *)
(** * Data model (types.go) *)
(* ================================================================== *)

(** The structs of types.go.  A Go pointer that validation inspects for
    [nil] is an [option]; the other pointers are followed. *)

(** prefill time = gamma + delta * inputTokens * batchSize (msec) *)
Record PrefillParms (F : Type) : Type := {
  Gamma : F;   (* base *)
  Delta : F    (* slope *)
}.
Arguments Gamma {F} _.
Arguments Delta {F} _.
Arguments Build_PrefillParms {F} _ _.

(** decode time = alpha + beta * batchSize (msec) *)
Record DecodeParms (F : Type) : Type := {
  Alpha : F;   (* base *)
  Beta : F     (* slope *)
}.
Arguments Alpha {F} _.
Arguments Beta {F} _.
Arguments Build_DecodeParms {F} _ _.

(** [ServiceParms] with both of its pointers followed. *)
Record ServiceParms (F : Type) : Type := {
  Prefill : PrefillParms F;
  Decode : DecodeParms F
}.
Arguments Prefill {F} _.
Arguments Decode {F} _.
Arguments Build_ServiceParms {F} _ _.

(** [*ServiceParms] as a configuration carries it: the pointer itself and
    the two pointers inside may be [nil]. *)
Record ServiceParmsRef (F : Type) : Type := {
  PrefillRef : option (PrefillParms F);
  DecodeRef : option (DecodeParms F)
}.
Arguments PrefillRef {F} _.
Arguments DecodeRef {F} _.
Arguments Build_ServiceParmsRef {F} _ _.

Record Configuration (F : Type) : Type := {
  cfg_MaxBatchSize : Z;                            (* MaxBatchSize int *)
  cfg_MaxQueueSize : Z;                            (* MaxQueueSize int *)
  cfg_ServiceParms : option (ServiceParmsRef F)    (* ServiceParms *ServiceParms *)
}.
Arguments cfg_MaxBatchSize {F} _.
Arguments cfg_MaxQueueSize {F} _.
Arguments cfg_ServiceParms {F} _.
Arguments Build_Configuration {F} _ _ _.

Record RequestSize : Type := {
  AvgInputTokens : Z;    (* average number of input tokens per request *)
  AvgOutputTokens : Z    (* average number of output tokens per request *)
}.

(** range of request rates (requests/sec) *)
Record RateRange (F : Type) : Type := {
  Min : F;
  Max : F
}.
Arguments Min {F} _.
Arguments Max {F} _.
Arguments Build_RateRange {F} _ _.

(** The analyzer.  Its [Model] field points to the one mutable object of the
    program; that object lives in the [World] below, the record keeps what
    is never written after the build. *)
Record QueueAnalyzer (F : Type) : Type := {
  qa_MaxBatchSize : Z;
  qa_MaxQueueSize : Z;
  qa_ServiceParms : ServiceParms F;
  qa_RequestSize : RequestSize;
  qa_RateRange : RateRange F
}.
Arguments qa_MaxBatchSize {F} _.
Arguments qa_MaxQueueSize {F} _.
Arguments qa_ServiceParms {F} _.
Arguments qa_RequestSize {F} _.
Arguments qa_RateRange {F} _.
Arguments Build_QueueAnalyzer {F} _ _ _ _ _.

Record AnalysisMetrics (F : Type) : Type := {
  Throughput : F;       (* effective throughput (requests/sec) *)
  AvgRespTime : F;      (* average request response time (msec) *)
  AvgWaitTime : F;      (* average request queueing time (msec) *)
  AvgNumInServ : F;     (* average number of requests in service *)
  AvgPrefillTime : F;   (* average request prefill time (msec) *)
  AvgTokenTime : F;     (* average token decode time (msec) *)
  MaxRate : F;          (* maximum throughput (requests/sec) *)
  Rho : F               (* utilization *)
}.
Arguments Throughput {F} _.
Arguments AvgRespTime {F} _.
Arguments AvgWaitTime {F} _.
Arguments AvgNumInServ {F} _.
Arguments AvgPrefillTime {F} _.
Arguments AvgTokenTime {F} _.
Arguments MaxRate {F} _.
Arguments Rho {F} _.
Arguments Build_AnalysisMetrics {F} _ _ _ _ _ _ _ _.

Record TargetPerf (F : Type) : Type := {
  TargetTTFT : F;   (* target time to first token (msec) *)
  TargetITL : F;    (* target inter-token latency (msec) *)
  TargetTPS : F     (* target token generation throughput (tokens/sec) *)
}.
Arguments TargetTTFT {F} _.
Arguments TargetITL {F} _.
Arguments TargetTPS {F} _.
Arguments Build_TargetPerf {F} _ _ _.

Record TargetRate (F : Type) : Type := {
  RateTargetTTFT : F;
  RateTargetITL : F;
  RateTargetTPS : F
}.
Arguments RateTargetTTFT {F} _.
Arguments RateTargetITL {F} _.
Arguments RateTargetTPS {F} _.
Arguments Build_TargetRate {F} _ _ _.

(** The errors.  The program builds them with [fmt.Errorf]; the embedding
    keeps which statement built the error and what it wraps. *)
Inductive error : Type :=
| InvalidConfig               (* "invalid configuration %s" *)
| InvalidWorkload             (* "invalid request size %s" *)
| InvalidTarget               (* "invalid target data values %s" *)
| InvalidRate                 (* "invalid request rate %v" *)
| RateOutOfRange              (* "rate=%v, max allowed rate=%v" *)
| ModelDivergence             (* "invalid model %s" *)
| TargetBelowRegion           (* "target is below the bounded region" *)
| SearchFailure (code : Z)    (* an error of the search utility's own *)
| FailedLambdaStarTTFT (ind : Z) (cause : error)
                              (* "failed to calculate lambdaStarTTFT, ..., ind=%d, err=%v" *)
| FailedLambdaStarITL (ind : Z) (cause : error).
                              (* "failed to calculate lambdaStarITL, ..., ind=%d, err=%v" *)

(** The error the specification calls TargetUnreachableLow. *)
Definition isTargetUnreachableLow (e : error) : bool :=
  match e with
  | FailedLambdaStarTTFT _ TargetBelowRegion => true
  | FailedLambdaStarITL _ TargetBelowRegion => true
  | _ => false
  end.

(* ================================================================== *)
(** * The two collaborators outside the package *)
(* ================================================================== *)

(** [queue.MM1ModelStateDependent], through the operations the analyzer
    calls.  [M] is the state of one model object; [Solve] returns the object
    after the call. *)
Class QueueModel (F M : Type) : Type := {
  NewMM1ModelStateDependent : Z -> list F -> M;
  Solve : F -> F -> M -> M;
  IsValid : M -> bool;
  GetAvgNumInServers : M -> F;
  GetAvgServTime : M -> F;
  GetThroughput : M -> F;
  GetAvgRespTime : M -> F;
  GetAvgWaitTime : M -> F
}.

(** What the program can write to after an analyzer is built: the model
    object, reached as [qa.Model] and, once [Size] has run, as
    [utils.Model]; and the package variables of queueanalyzer.go. *)
Record World (F M : Type) : Type := {
  Model : M;
  evalRequestSize : RequestSize;
  evalServiceParms : ServiceParms F;
  evalMaxBatchSize : Z
}.
Arguments Model {F M} _.
Arguments evalRequestSize {F M} _.
Arguments evalServiceParms {F M} _.
Arguments evalMaxBatchSize {F M} _.
Arguments Build_World {F M} _ _ _ _.

Definition setModel {F M} (w : World F M) (m : M) : World F M :=
  Build_World m (evalRequestSize w) (evalServiceParms w) (evalMaxBatchSize w).

(** A computation on the world. *)
Definition Comp (F M A : Type) : Type := World F M -> A * World F M.

(** [utils.BinarySearch(low, high, target, evalFn)] returns [(x, ind, err)];
    [evalFn] returns [(value, err)] and may write to the world. *)
Class RootFinder (F M : Type) : Type := {
  BinarySearch :
    F -> F -> F -> (F -> Comp F M (F * option error)) ->
    Comp F M (F * Z * option error)
}.

(** A call that returns [(value, err)] and is abandoned on [err != nil]. *)
Inductive Result (A : Type) : Type :=
| Ok (a : A)
| Err (e : error).
Arguments Ok {A} _.
Arguments Err {A} _.

Definition ret {F M A} (a : A) : Comp F M (Result A) := fun w => (Ok a, w).

Definition bind {F M A B} (c : Comp F M (Result A))
    (k : A -> Comp F M (Result B)) : Comp F M (Result B) :=
  fun w =>
    match c w with
    | (Ok a, w') => k a w'
    | (Err e, w') => (Err e, w')
    end.

Declare Scope comp_scope.
Delimit Scope comp_scope with comp.
Notation "x <- c ;; k" := (bind c (fun x => k))
  (at level 100, c at next level, right associativity) : comp_scope.

(* ================================================================== *)
(** * Validation *)
(* ================================================================== *)

Section Validation.
Context {F : Type} `{Arith F}.

Definition is_nil {A} (p : option A) : bool :=
  match p with None => true | Some _ => false end.

(** [func (c *Configuration) check() error] *)
Definition Configuration_check (c : Configuration F) : option error :=
  if (cfg_MaxBatchSize c <=? 0) || (cfg_MaxQueueSize c <? 0) ||
     match cfg_ServiceParms c with
     | None => true
     | Some sp => is_nil (PrefillRef sp) || is_nil (DecodeRef sp)
     end
  then Some InvalidConfig
  else None.

(** [func (rq *RequestSize) check() error] *)
Definition RequestSize_check (rq : RequestSize) : option error :=
  if (AvgInputTokens rq <? 0) || (AvgOutputTokens rq <? 1)
  then Some InvalidWorkload
  else None.

(** [func (targetPerf *TargetPerf) check() error] *)
Definition TargetPerf_check (targetPerf : TargetPerf F) : option error :=
  if (TargetITL targetPerf <? zero)%F ||
     (TargetTTFT targetPerf <? zero)%F ||
     (TargetTPS targetPerf <? zero)%F
  then Some InvalidTarget
  else None.

End Validation.

(* ================================================================== *)
(** * The cost formulas and the effective concurrency *)
(* ================================================================== *)

Section Formulas.
Context {F : Type} `{Arith F}.

(** [func (p *PrefillParms) PrefillTime(avgInputTokens int, batchSize float32) float32] *)
Definition PrefillTime (p : PrefillParms F) (avgInputTokens : Z)
    (batchSize : F) : F :=
  if avgInputTokens =? 0 then zero
  else (Gamma p + Delta p * ofInt avgInputTokens * batchSize)%F.

(** [func (p *DecodeParms) DecodeTime(batchSize float32) float32] *)
Definition DecodeTime (p : DecodeParms F) (batchSize : F) : F :=
  (Alpha p + Beta p * batchSize)%F.

(** The divisor of [EffectiveConcurrency]. *)
Definition concurrencyDenominator (serviceParms : ServiceParms F)
    (requestSize : RequestSize) : F :=
  let tokens := ofInt (int_sub (AvgOutputTokens requestSize) 1) in
  (Delta (Prefill serviceParms) * ofInt (AvgInputTokens requestSize)
   + Beta (Decode serviceParms) * tokens)%F.

(** [func EffectiveConcurrency(avgServiceTime float32, serviceParms
    *ServiceParms, requestSize *RequestSize, maxBatchSize int) float32] *)
Definition EffectiveConcurrency (avgServiceTime : F)
    (serviceParms : ServiceParms F) (requestSize : RequestSize)
    (maxBatchSize : Z) : F :=
  let tokens := ofInt (int_sub (AvgOutputTokens requestSize) 1) in
  let numerator :=
    (avgServiceTime
     - (Gamma (Prefill serviceParms) + Alpha (Decode serviceParms) * tokens))%F in
  let denominator := concurrencyDenominator serviceParms requestSize in
  let n := (numerator / denominator)%F in
  fmin (fmax n zero) (ofInt maxBatchSize).

(** The body of the loop of [BuildModel]: the divisor
    [prefillTime + decodeTime] at a batch size, and the service rate
    stored in [servRate[n-1]]. *)
Definition serviceTime (parms : ServiceParms F) (requestSize : RequestSize)
    (batchSize : F) : F :=
  let prefillTime :=
    PrefillTime (Prefill parms) (AvgInputTokens requestSize) batchSize in
  let decodeTime :=
    (ofInt (int_sub (AvgOutputTokens requestSize) 1)
     * DecodeTime (Decode parms) batchSize)%F in
  (prefillTime + decodeTime)%F.

Definition serviceRate (parms : ServiceParms F) (requestSize : RequestSize)
    (n : Z) : F :=
  (ofInt n / serviceTime parms requestSize (ofInt n))%F.

(** [for n := 1; n <= qConfig.MaxBatchSize; n++ { ...; servRate[n-1] = ... }]
    with [count] iterations left. *)
Fixpoint servRateLoop (parms : ServiceParms F) (requestSize : RequestSize)
    (count : nat) (n : Z) (servRate : list F) : list F :=
  match count with
  | O => servRate
  | S count' =>
      servRateLoop parms requestSize count' (n + 1)
        (<[Z.to_nat (n - 1) := serviceRate parms requestSize n]> servRate)
  end.

(** [servRate := make([]float32, qConfig.MaxBatchSize)] and the loop. *)
Definition servRateProfile (parms : ServiceParms F)
    (requestSize : RequestSize) (maxBatchSize : Z) : list F :=
  servRateLoop parms requestSize (Z.to_nat maxBatchSize) 1
    (replicate (Z.to_nat maxBatchSize) zero).

End Formulas.

(* ================================================================== *)
(** * The analyzer (queueanalyzer.go) *)
(* ================================================================== *)

Section Analyzer.
Context {F M : Type} `{Arith F} `{QueueModel F M} `{RootFinder F M}.

(** [func BuildModel(qConfig *Configuration, requestSize *RequestSize)
    (modelData *QueueAnalyzer)], together with the model object it
    creates.  [None] is a run-time panic: a [nil] pointer followed, [make]
    with a negative length, or [servRate[0]] on an empty slice.  (With
    [AvgInputTokens = 0] Go follows a [nil] [Prefill] only at the first
    [Analyze]; the embedding reports that panic here.) *)
Definition BuildModel (qConfig : Configuration F) (requestSize : RequestSize)
    : option (QueueAnalyzer F * M) :=
  match cfg_ServiceParms qConfig with
  | Some (Build_ServiceParmsRef (Some prefill) (Some decode)) =>
      let parms := Build_ServiceParms prefill decode in
      if cfg_MaxBatchSize qConfig <? 0 then None
      else
        (* calculate state-dependent service rate *)
        let servRate :=
          servRateProfile parms requestSize (cfg_MaxBatchSize qConfig) in
        (* set and check limits *)
        match servRate !! 0%nat,
              servRate !! Z.to_nat (cfg_MaxBatchSize qConfig - 1) with
        | Some servRate_first, Some servRate_last =>
            let lambdaMin := (servRate_first * Epsilon)%F in
            let lambdaMax := (servRate_last * (one - Epsilon))%F in
            let rateRange :=
              Build_RateRange (lambdaMin * thousand)%F
                              (lambdaMax * thousand)%F in
            (* create and solve model *)
            let occupancyUpperBound :=
              int_add (cfg_MaxQueueSize qConfig) (cfg_MaxBatchSize qConfig) in
            let model :=
              NewMM1ModelStateDependent occupancyUpperBound servRate in
            Some (Build_QueueAnalyzer
                    (cfg_MaxBatchSize qConfig)
                    (cfg_MaxQueueSize qConfig)
                    parms requestSize rateRange,
                  model)
        | _, _ => None
        end
  | _ => None
  end.

(** [func NewQueueAnalyzer]: both checks, then [BuildModel]; the outer
    [option] is the panic of [BuildModel]. *)
Definition NewQueueAnalyzer (qConfig : Configuration F)
    (requestSize : RequestSize) : option (Result (QueueAnalyzer F * M)) :=
  match Configuration_check qConfig with
  | Some err => Some (Err err)
  | None =>
      match RequestSize_check requestSize with
      | Some err => Some (Err err)
      | None =>
          match BuildModel qConfig requestSize with
          | Some built => Some (Ok built)
          | None => None
          end
      end
  end.

(** The world in which a freshly built analyzer starts: its own model
    object, and the package variables as [Size] will first set them.  (In Go
    they are [nil] and 0 until then; the callbacks that read them are
    reached through [Size] only, after it has written them.) *)
Definition initialWorld (qa : QueueAnalyzer F) (model : M) : World F M :=
  Build_World model (qa_RequestSize qa) (qa_ServiceParms qa)
              (qa_MaxBatchSize qa).

(** [func (qa *QueueAnalyzer) Analyze(requestRate float32)
    (metrics *AnalysisMetrics, err error)] *)
Definition Analyze (qa : QueueAnalyzer F) (requestRate : F)
    : Comp F M (Result (AnalysisMetrics F)) :=
  fun w =>
    if (requestRate <=? zero)%F then (Err InvalidRate, w)
    else
      let rateRange := qa_RateRange qa in
      if (Max rateRange <? requestRate)%F then (Err RateOutOfRange, w)
      else
        (* solve model *)
        let model := Solve (requestRate / thousand)%F one (Model w) in
        let w' := setModel w model in
        if negb (IsValid model) then (Err ModelDivergence, w')
        else
          (* get statistics *)
          let avgNumInServ := GetAvgNumInServers model in
          let effConc :=
            EffectiveConcurrency (GetAvgServTime model) (qa_ServiceParms qa)
              (qa_RequestSize qa) (qa_MaxBatchSize qa) in
          let prefillTime :=
            PrefillTime (Prefill (qa_ServiceParms qa))
              (AvgInputTokens (qa_RequestSize qa)) effConc in
          let tokenTime := DecodeTime (Decode (qa_ServiceParms qa)) effConc in
          let rho := (avgNumInServ / ofInt (qa_MaxBatchSize qa))%F in
          let rho := fmin (fmax rho zero) one in
          (* return solution *)
          (Ok {| Throughput := (GetThroughput model * thousand)%F;
                 AvgRespTime := GetAvgRespTime model;
                 AvgWaitTime := GetAvgWaitTime model;
                 AvgNumInServ := avgNumInServ;
                 AvgPrefillTime := prefillTime;
                 AvgTokenTime := tokenTime;
                 MaxRate := Max rateRange;
                 Rho := rho |},
           w').

(** [func EvalTTFT(x float32) (float32, error)], on [utils.Model] and the
    package variables. *)
Definition EvalTTFT (x : F) : Comp F M (F * option error) :=
  fun w =>
    let model := Solve x one (Model w) in
    let w' := setModel w model in
    if negb (IsValid model) then ((zero, Some ModelDivergence), w')
    else
      let avgWaitTime := GetAvgWaitTime model in
      let effConc :=
        EffectiveConcurrency (GetAvgServTime model) (evalServiceParms w')
          (evalRequestSize w') (evalMaxBatchSize w') in
      let ttft :=
        (avgWaitTime
         + PrefillTime (Prefill (evalServiceParms w'))
             (AvgInputTokens (evalRequestSize w')) effConc)%F in
      ((ttft, None), w').

(** [func EvalITL(x float32) (float32, error)] *)
Definition EvalITL (x : F) : Comp F M (F * option error) :=
  fun w =>
    let model := Solve x one (Model w) in
    let w' := setModel w model in
    if negb (IsValid model) then ((zero, Some ModelDivergence), w')
    else
      let effConc :=
        EffectiveConcurrency (GetAvgServTime model) (evalServiceParms w')
          (evalRequestSize w') (evalMaxBatchSize w') in
      ((DecodeTime (Decode (evalServiceParms w')) effConc, None), w').

(** [Size], "set global variables for model and parameters used in
    functional evaluation": [utils.Model = qa.Model] makes the one model
    object reachable under a second name; the three package variables
    are overwritten. *)
Definition setEvalGlobals (qa : QueueAnalyzer F) (w : World F M)
    : World F M :=
  Build_World (Model w) (qa_RequestSize qa) (qa_ServiceParms qa)
    (qa_MaxBatchSize qa).

(** [Size], "find max rate to achieve target TTFT time":
    [lambdaStarTTFT] in requests/msec. *)
Definition Size_TTFT (qa : QueueAnalyzer F) (targetPerf : TargetPerf F)
    : Comp F M (Result F) :=
  fun w =>
    let targetTTFT := TargetTTFT targetPerf in
    let lambdaMin := (Min (qa_RateRange qa) / thousand)%F in
    let lambdaMax := (Max (qa_RateRange qa) / thousand)%F in
    if (zero <? targetTTFT)%F then
      let '((lambdaStarTTFT, ind, err), w') :=
        BinarySearch lambdaMin lambdaMax targetTTFT EvalTTFT w in
      let err := if ind <? 0 then Some TargetBelowRegion else err in
      match err with
      | Some err => (Err (FailedLambdaStarTTFT ind err), w')
      | None => (Ok lambdaStarTTFT, w')
      end
    else (Ok lambdaMax, w).

(** [Size], "find max rate to achieve target ITL time". *)
Definition Size_ITL (qa : QueueAnalyzer F) (targetPerf : TargetPerf F)
    : Comp F M (Result F) :=
  fun w =>
    let targetITL := TargetITL targetPerf in
    let lambdaMin := (Min (qa_RateRange qa) / thousand)%F in
    let lambdaMax := (Max (qa_RateRange qa) / thousand)%F in
    if (zero <? targetITL)%F then
      let '((lambdaStarITL, ind, err), w') :=
        BinarySearch lambdaMin lambdaMax targetITL EvalITL w in
      let err := if ind <? 0 then Some TargetBelowRegion else err in
      match err with
      | Some err => (Err (FailedLambdaStarITL ind err), w')
      | None => (Ok lambdaStarITL, w')
      end
    else (Ok lambdaMax, w).

(** [Size], "find max rate to achieve target TPS". *)
Definition Size_TPS (qa : QueueAnalyzer F) (targetPerf : TargetPerf F) : F :=
  let targetTPS := TargetTPS targetPerf in
  let lambdaMax := (Max (qa_RateRange qa) / thousand)%F in
  if (zero <? targetTPS)%F
  then (lambdaMax * (one - StabilitySafetyFraction))%F
  else lambdaMax.

(** [Size] up to the three per-objective rates [lambdaStarTTFT],
    [lambdaStarITL] and [lambdaStarTPS]. *)
Definition Size_rates (qa : QueueAnalyzer F) (targetPerf : TargetPerf F)
    : Comp F M (Result (F * F * F)) :=
  fun w =>
    (lambdaStarTTFT <- Size_TTFT qa targetPerf ;;
     lambdaStarITL <- Size_ITL qa targetPerf ;;
     ret (lambdaStarTTFT, lambdaStarITL, Size_TPS qa targetPerf))%comp
      (setEvalGlobals qa w).

(** The rate [Size] hands to [Analyze] (requests/sec). *)
Definition chosenRate (lambdaStarTTFT lambdaStarITL lambdaStarTPS : F) : F :=
  let lambda := fmin3 lambdaStarTTFT lambdaStarITL lambdaStarTPS in
  (lambda * thousand)%F.

(** [func (qa *QueueAnalyzer) Size(targetPerf *TargetPerf) (targetRate
    *TargetRate, metrics *AnalysisMetrics, achieved *TargetPerf, err error)] *)
Definition Size (qa : QueueAnalyzer F) (targetPerf : TargetPerf F)
    : Comp F M (Result (TargetRate F * AnalysisMetrics F * TargetPerf F)) :=
  match TargetPerf_check targetPerf with
  | Some err => fun w => (Err err, w)
  | None =>
      (rates <- Size_rates qa targetPerf ;;
       let '(lambdaStarTTFT, lambdaStarITL, lambdaStarTPS) := rates in
       (* analyze queue with smaller of rates *)
       let requestRate :=
         chosenRate lambdaStarTTFT lambdaStarITL lambdaStarTPS in
       metrics <- Analyze qa requestRate ;;
       let targetRate :=
         {| RateTargetTTFT := (lambdaStarTTFT * thousand)%F;
            RateTargetITL := (lambdaStarITL * thousand)%F;
            RateTargetTPS := (lambdaStarTPS * thousand)%F |} in
       let achieved :=
         {| TargetTTFT := (AvgWaitTime metrics + AvgPrefillTime metrics)%F;
            TargetITL := AvgTokenTime metrics;
            TargetTPS :=
              (Throughput metrics
               * ofInt (AvgOutputTokens (qa_RequestSize qa)))%F |} in
       ret (targetRate, metrics, achieved))%comp
  end.

(** The two reports of [Size], as functions of what they are built from. *)
Definition targetRateOf (lambdaStarTTFT lambdaStarITL lambdaStarTPS : F)
    : TargetRate F :=
  {| RateTargetTTFT := (lambdaStarTTFT * thousand)%F;
     RateTargetITL := (lambdaStarITL * thousand)%F;
     RateTargetTPS := (lambdaStarTPS * thousand)%F |}.

Definition achievedOf (qa : QueueAnalyzer F) (metrics : AnalysisMetrics F)
    : TargetPerf F :=
  {| TargetTTFT := (AvgWaitTime metrics + AvgPrefillTime metrics)%F;
     TargetITL := AvgTokenTime metrics;
     TargetTPS :=
       (Throughput metrics * ofInt (AvgOutputTokens (qa_RequestSize qa)))%F |}.

End Analyzer.

(* ================================================================== *)
(** * The exact reading *)
(* ================================================================== *)

(** Over [Q] the service time is affine in the batch size,
    [serviceTime x == baseTime + slopeTime * x]; these are its two
    coefficients. *)
Definition baseTime (parms : ServiceParms Q) (rq : RequestSize) : Q :=
  ((if (AvgInputTokens rq =? 0)%Z then 0 else Gamma (Prefill parms))
   + inject_Z (int_sub (AvgOutputTokens rq) 1) * Alpha (Decode parms))%Q.

Definition slopeTime (parms : ServiceParms Q) (rq : RequestSize) : Q :=
  ((if (AvgInputTokens rq =? 0)%Z then 0
    else Delta (Prefill parms) * inject_Z (AvgInputTokens rq))
   + inject_Z (int_sub (AvgOutputTokens rq) 1) * Beta (Decode parms))%Q.

(** None of gamma, delta, alpha, beta is negative. *)
Record nonnegative (parms : ServiceParms Q) : Prop := {
  nonneg_gamma : (0 <= Gamma (Prefill parms))%Q;
  nonneg_delta : (0 <= Delta (Prefill parms))%Q;
  nonneg_alpha : (0 <= Alpha (Decode parms))%Q;
  nonneg_beta : (0 <= Beta (Decode parms))%Q
}.

(* ================================================================== *)
(** * Reference collaborators *)
(* ================================================================== *)

(** The package [queue] and the search of [utils] are not part of the
    analyzer.  The statements below hold for every implementation of
    [QueueModel] and [RootFinder]; the two below serve to run the analyzer
    on concrete inputs. *)
Module Reference.

Section Solver.
Context {F : Type} `{Arith F}.

(** Modelled from the spec: the queueing model of package [queue], "a
    finite-state birth-death (state-dependent M/M/1) Markov model",
    "constructed with (occupancy upper bound, service-rate profile: one
    per occupancy 1..maxBatchSize, extended implicitly by reuse of the
    last value beyond maxBatchSize)", whose [solve] "mutates internal
    solved state": "each call to solve overwrites the model's
    last-solved state". *)
Record MM1 : Type := {
  occupancyUpperBound : Z;
  servRate : list F;
  solved : bool;
  avgNumInSystem : F;
  avgNumInServers : F;
  throughput : F
}.

Definition new (K : Z) (rates : list F) : MM1 :=
  {| occupancyUpperBound := K; servRate := rates; solved := false;
     avgNumInSystem := zero; avgNumInServers := zero; throughput := zero |}.

(** Service rate at occupancy [n >= 1]. *)
Definition mu (rates : list F) (n : nat) : F :=
  match rates !! (Nat.min n (length rates) - 1)%nat with
  | Some r => r
  | None => zero
  end.

(** Unnormalised stationary weights [p_0 .. p_K] of the birth-death
    chain, [p_n = p_(n-1) * lambda / mu(n)]. *)
Fixpoint weights (rates : list F) (lambda : F) (k : nat) (n : nat)
    (p : F) : list F :=
  match k with
  | O => [p]
  | S k' => p :: weights rates lambda k' (S n) (p * (lambda / mu rates (S n)))%F
  end.

Definition sum (l : list F) : F := fold_right add zero l.

Fixpoint weighted (f : nat -> F) (n : nat) (l : list F) : F :=
  match l with
  | [] => zero
  | p :: l' => (f n * p + weighted f (S n) l')%F
  end.

(** Modelled from the spec: [solve(arrivalRate, precision)], which
    "overwrites the model's last-solved state": the bound and the rate
    profile are kept, everything else is computed anew from them and the
    arrival rate.  The second argument of [Solve] is not used. *)
Definition solve (lambda : F) (m : MM1) : MM1 :=
  let K := Z.to_nat (occupancyUpperBound m) in
  let B := length (servRate m) in
  let p := weights (servRate m) lambda K 0 one in
  let total := sum p in
  let pK := match last p with Some x => x | None => zero end in
  let inSystem :=
    (weighted (fun n => ofInt (Z.of_nat n)) 0 p / total)%F in
  let inServers :=
    (weighted (fun n => ofInt (Z.of_nat (Nat.min n B))) 0 p / total)%F in
  {| occupancyUpperBound := occupancyUpperBound m;
     servRate := servRate m;
     solved := true;
     avgNumInSystem := inSystem;
     avgNumInServers := inServers;
     throughput := (lambda * (one - pK / total))%F |}.

Definition valid (m : MM1) : bool :=
  solved m && (zero <? throughput m)%F.

Definition model : QueueModel F MM1 := {|
  NewMM1ModelStateDependent := new;
  Solve := fun lambda _ m => solve lambda m;
  IsValid := valid;
  GetAvgNumInServers := avgNumInServers;
  GetAvgServTime := fun m => (avgNumInServers m / throughput m)%F;
  GetThroughput := throughput;
  GetAvgRespTime := fun m => (avgNumInSystem m / throughput m)%F;
  GetAvgWaitTime := fun m =>
    ((avgNumInSystem m - avgNumInServers m) / throughput m)%F
|}.

(** Modelled from the spec: the search of package [utils], which "given
    a continuous, monotonically non-decreasing function over [low,
    high] and a target value" returns a point where the function
    reaches the target, "or a boundary indicator signaling target below
    range / target above range", "plus a propagated evaluation error";
    "bounded by a fixed iteration budget". *)
Fixpoint bisect (fuel : nat) (low high target : F)
    (evalFn : F -> Comp F MM1 (F * option error))
    : Comp F MM1 (F * Z * option error) :=
  fun w =>
    let mid := ((low + high) / ofInt 2)%F in
    match fuel with
    | O => ((mid, 0, None), w)
    | S fuel' =>
        let '((y, err), w') := evalFn mid w in
        match err with
        | Some e => ((mid, 0, Some e), w')
        | None =>
            if (y <? target)%F
            then bisect fuel' mid high target evalFn w'
            else bisect fuel' low mid target evalFn w'
        end
    end.

Definition search (low high target : F)
    (evalFn : F -> Comp F MM1 (F * option error))
    : Comp F MM1 (F * Z * option error) :=
  fun w =>
    let '((ylow, err), w1) := evalFn low w in
    match err with
    | Some e => ((low, 0, Some e), w1)
    | None =>
        if (target <? ylow)%F then ((low, -1, None), w1)
        else
          let '((yhigh, err), w2) := evalFn high w1 in
          match err with
          | Some e => ((high, 0, Some e), w2)
          | None =>
              if (yhigh <? target)%F then ((high, 1, None), w2)
              else bisect 24 low high target evalFn w2
          end
    end.

Definition finder : RootFinder F MM1 := {| BinarySearch := search |}.

End Solver.

Arguments MM1 F : clear implicits.

#[export] Existing Instance model.
#[export] Existing Instance finder.

End Reference.

(* ================================================================== *)
(** * Concrete inputs *)
(* ================================================================== *)

Module Inputs.
Import Reference.

(** The decimal literal [n/d] at [float32], for [n] and [d] that binary32
    holds exactly. *)
Definition lit (n d : Z) : float32 := (ofInt n / ofInt d)%F.

Definition parms (gamma delta alpha beta : float32) : ServiceParms float32 :=
  {| Prefill := {| Gamma := gamma; Delta := delta |};
     Decode := {| Alpha := alpha; Beta := beta |} |}.

Definition config (maxBatchSize maxQueueSize : Z)
    (gamma delta alpha beta : float32) : Configuration float32 :=
  {| cfg_MaxBatchSize := maxBatchSize;
     cfg_MaxQueueSize := maxQueueSize;
     cfg_ServiceParms :=
       Some {| PrefillRef := Some {| Gamma := gamma; Delta := delta |};
               DecodeRef := Some {| Alpha := alpha; Beta := beta |} |} |}.

(** The scenario of the specification: maxBatchSize=4, maxQueueSize=10,
    prefill{gamma=50, delta=0.01}, decode{alpha=20, beta=2},
    workload{inTokens=500, outTokens=100}. *)
Definition scenarioParms : ServiceParms float32 :=
  parms (ofInt 50) (lit 1 100) (ofInt 20) (ofInt 2).
Definition scenarioConfig : Configuration float32 :=
  config 4 10 (ofInt 50) (lit 1 100) (ofInt 20) (ofInt 2).
Definition scenarioSize : RequestSize :=
  {| AvgInputTokens := 500; AvgOutputTokens := 100 |}.

(** Building on the reference model; [fallback] stands where the build
    gives nothing. *)
Definition fallback : QueueAnalyzer float32 * (MM1 float32) :=
  ({| qa_MaxBatchSize := 0; qa_MaxQueueSize := 0;
      qa_ServiceParms := parms zero zero zero zero;
      qa_RequestSize := {| AvgInputTokens := 0; AvgOutputTokens := 0 |};
      qa_RateRange := {| Min := zero; Max := zero |} |},
   new 0 []).

Definition build (c : Configuration float32) (rq : RequestSize)
    : QueueAnalyzer float32 * (MM1 float32) :=
  match NewQueueAnalyzer c rq with
  | Some (Ok built) => built
  | _ => fallback
  end.

Definition analyzerOf (c : Configuration float32) (rq : RequestSize)
    : QueueAnalyzer float32 := fst (build c rq).

Definition worldOf (c : Configuration float32) (rq : RequestSize)
    : World float32 (MM1 float32) :=
  initialWorld (fst (build c rq)) (snd (build c rq)).

Definition scenario : QueueAnalyzer float32 :=
  analyzerOf scenarioConfig scenarioSize.
Definition scenarioWorld : World float32 (MM1 float32) :=
  worldOf scenarioConfig scenarioSize.

(** The ends of its rate range in requests/msec, as [Size] computes them. *)
Definition scenarioLambdaMin : float32 :=
  (Min (qa_RateRange scenario) / thousand)%F.
Definition scenarioLambdaMax : float32 :=
  (Max (qa_RateRange scenario) / thousand)%F.

Definition noTargets : TargetPerf float32 :=
  {| TargetTTFT := zero; TargetITL := zero; TargetTPS := zero |}.

(** TTFT within 3 s, 25 ms between tokens, some throughput target. *)
Definition someTargets : TargetPerf float32 :=
  {| TargetTTFT := ofInt 3000; TargetITL := ofInt 25; TargetTPS := ofInt 1 |}.

(** A first token within 1 ms: less than the prefill alone. *)
Definition hastyTTFT : TargetPerf float32 :=
  {| TargetTTFT := ofInt 1; TargetITL := zero; TargetTPS := zero |}.

(** 21 ms between tokens: less than one decode step at batch size 1. *)
Definition hastyITL : TargetPerf float32 :=
  {| TargetTTFT := zero; TargetITL := ofInt 21; TargetTPS := zero |}.

(** A configuration that passes [check] with a negative base cost. *)
Definition negativeConfig : Configuration float32 :=
  config 1 0 (ofInt (-1)) zero zero zero.
Definition unitSize : RequestSize :=
  {| AvgInputTokens := 1; AvgOutputTokens := 1 |}.
Definition negativeAnalyzer : QueueAnalyzer float32 :=
  analyzerOf negativeConfig unitSize.
Definition negativeWorld : World float32 (MM1 float32) :=
  worldOf negativeConfig unitSize.

(** A workload that passes [check] and costs nothing: no input token and
    a single output token. *)
Definition emptySize : RequestSize :=
  {| AvgInputTokens := 0; AvgOutputTokens := 1 |}.

(** Positive parameters with a negligible base cost, gamma = 2^-100. *)
Definition flatParms : ServiceParms float32 :=
  parms (lit 1 (2 ^ 100)) (lit 1 100) (ofInt 20) (ofInt 2).

(** A base cost of 2^24 ms, where binary32 no longer holds odd integers. *)
Definition coarseParms : ServiceParms float32 :=
  parms (ofInt (2 ^ 24)) one zero zero.

(** Costs that do not depend on the batch size: delta = beta = 0. *)
Definition constantParms : ServiceParms float32 :=
  parms (ofInt 50) zero (ofInt 20) zero.

(** Six slots, no queue. *)
Definition flatConfig : Configuration float32 :=
  config 6 0 (lit 1 (2 ^ 100)) (lit 1 100) (ofInt 20) (ofInt 2).

(** The scenario in exact arithmetic, on the reference model. *)
Definition exactParms : ServiceParms Q :=
  {| Prefill := {| Gamma := 50%Q; Delta := (1 # 100)%Q |};
     Decode := {| Alpha := 20%Q; Beta := 2%Q |} |}.
Definition exactConfig : Configuration Q :=
  {| cfg_MaxBatchSize := 4;
     cfg_MaxQueueSize := 10;
     cfg_ServiceParms :=
       Some {| PrefillRef := Some (Prefill exactParms);
               DecodeRef := Some (Decode exactParms) |} |}.

End Inputs.

(* ================================================================== *)
(** * Vocabulary for the further properties *)
(* ================================================================== *)

(** What [Configuration.check] accepts. *)
Definition valid_Configuration {F} (c : Configuration F) : Prop :=
  1 <= cfg_MaxBatchSize c /\ 0 <= cfg_MaxQueueSize c /\
  exists prefill decode,
    cfg_ServiceParms c
    = Some (Build_ServiceParmsRef (Some prefill) (Some decode)).

(** What [RequestSize.check] accepts. *)
Definition valid_RequestSize (rq : RequestSize) : Prop :=
  0 <= AvgInputTokens rq /\ 1 <= AvgOutputTokens rq.

(** The values [n, n + 1, ...] the loop variable of [BuildModel] takes in
    [count] rounds. *)
Fixpoint batchSizes (count : nat) (n : Z) : list Z :=
  match count with
  | O => []
  | S count' => n :: batchSizes count' (n + 1)
  end.

(** The package variables hold what [Size] copies from [qa]. *)
Definition globalsOf {F M} (qa : QueueAnalyzer F) (w : World F M) : Prop :=
  evalRequestSize w = qa_RequestSize qa /\
  evalServiceParms w = qa_ServiceParms qa /\
  evalMaxBatchSize w = qa_MaxBatchSize qa.

(** Two targets that constrain the same objectives in the same way: each
    of TTFT and ITL is positive in both, with the same value, or in
    neither; TPS is positive in both or in neither. *)
Definition same_constraints {F} `{Arith F} (tp tp' : TargetPerf F) : Prop :=
  ((zero <? TargetTTFT tp)%F = (zero <? TargetTTFT tp')%F /\
   ((zero <? TargetTTFT tp)%F = true -> TargetTTFT tp = TargetTTFT tp')) /\
  ((zero <? TargetITL tp)%F = (zero <? TargetITL tp')%F /\
   ((zero <? TargetITL tp)%F = true -> TargetITL tp = TargetITL tp')) /\
  (zero <? TargetTPS tp)%F = (zero <? TargetTPS tp')%F.

(** The rates [Analyze] lets through at binary32: a NaN, or a positive rate
    that is not above [rateRange.Max] (which no rate is when [Max] is NaN). *)
Definition accepted (qa : QueueAnalyzer float32) (r : float32) : Prop :=
  F32.is_nan r = true \/
  ((zero <? r)%F = true /\
   ((r <=? Max (qa_RateRange qa))%F = true \/
    F32.is_nan (Max (qa_RateRange qa)) = true)).

(** At binary32: neither negative nor a NaN, that is +0, -0, a positive
    finite value or +Inf. *)
Definition nonneg32 (x : float32) : Prop :=
  match x with
  | S754_zero _ => True
  | S754_infinity s | S754_finite s _ _ => s = false
  | S754_nan => False
  end.

(** What [EffectiveConcurrency] subtracts from the average service time:
    the service time at batch size 0. *)
Definition concurrencyBase (parms : ServiceParms Q) (rq : RequestSize) : Q :=
  (Gamma (Prefill parms)
   + Alpha (Decode parms) * inject_Z (int_sub (AvgOutputTokens rq) 1))%Q.

(** The verb [%d] of package [fmt] at an [int]: decimal digits, with a
    leading [-] for a negative number. *)
Definition format_int (z : Z) : string := NilZero.string_of_int (Z.to_int z).

(** [func (rq *RequestSize) String() string], that is
    [fmt.Sprintf("{inTokens=%d, outTokens=%d}", ...)]. *)
Definition RequestSize_String (rq : RequestSize) : string :=
  ("{inTokens=" ++ format_int (AvgInputTokens rq)
   ++ ", outTokens=" ++ format_int (AvgOutputTokens rq) ++ "}")%string.

(** The character [c] does not occur in [s]. *)
Fixpoint absent (c : ascii) (s : string) : Prop :=
  match s with
  | EmptyString => True
  | String a s' => a <> c /\ absent c s'
  end.

Module MoreInputs.
Import Reference Inputs.

(** One slot and the longest queue an [int] can hold. *)
Definition crowdedConfig : Configuration float32 :=
  config 1 MaxInt (ofInt 50) (lit 1 100) (ofInt 20) (ofInt 2).

(** The targets of [someTargets] with another throughput target. *)
Definition otherTPS : TargetPerf float32 :=
  {| TargetTTFT := ofInt 3000; TargetITL := ofInt 25; TargetTPS := ofInt 5000 |}.

(** Only a throughput target, in exact arithmetic. *)
Definition exactTPS : TargetPerf Q :=
  {| TargetTTFT := 0%Q; TargetITL := 0%Q; TargetTPS := 1000%Q |}.

(** The scenario built in exact arithmetic. *)
Definition exactScenario : QueueAnalyzer Q :=
  {| qa_MaxBatchSize := 4; qa_MaxQueueSize := 10;
     qa_ServiceParms := exactParms; qa_RequestSize := scenarioSize;
     qa_RateRange :=
       {| Min := (serviceRate exactParms scenarioSize 1
                  * Epsilon * thousand)%F;
          Max := (serviceRate exactParms scenarioSize 4
                  * (one - Epsilon) * thousand)%F |} |}.

Definition exactWorld : World Q (MM1 Q) :=
  initialWorld exactScenario
    (NewMM1ModelStateDependent 14 (servRateProfile exactParms scenarioSize 4)).

End MoreInputs.

(* ================================================================== *)
(** * Facts of binary32 *)
(* ================================================================== *)

Module F32Facts.

Lemma compare_nan (x y : float32) :
  SFcompare x y = None <-> F32.is_nan x || F32.is_nan y = true.
Proof.
  destruct x as [sx|sx| |sx mx ex], y as [sy|sy| |sy my ey]; simpl;
    split; intro Hx; try reflexivity; try discriminate.
Qed.

Lemma compare_cont_opp (m1 m2 : positive) :
  Pos.compare_cont Eq m2 m1 = CompOpp (Pos.compare_cont Eq m1 m2).
Proof. apply Pos.compare_antisym. Qed.

Lemma compare_antisym (x y : float32) :
  SFcompare y x = option_map CompOpp (SFcompare x y).
Proof.
  destruct x as [sx|sx| |sx mx ex], y as [sy|sy| |sy my ey]; simpl;
    try reflexivity;
    try (destruct sx; reflexivity); try (destruct sy; reflexivity);
    try (destruct sx, sy; reflexivity).
  rewrite (Z.compare_antisym ey ex), (compare_cont_opp mx my).
  destruct sx, sy; simpl; try reflexivity;
    destruct (ey ?= ex); simpl; try reflexivity;
    destruct (Pos.compare_cont Eq mx my); reflexivity.
Qed.

Lemma compare_refl (x : float32) :
  F32.is_nan x = false -> SFcompare x x = Some Eq.
Proof.
  destruct x as [sx|sx| |sx mx ex]; simpl; intro Hx;
    try discriminate; try reflexivity.
  - destruct sx; reflexivity.
  - rewrite Z.compare_refl, Pos.compare_cont_refl. destruct sx; reflexivity.
Qed.


Abbreviation number := F32.number.

Lemma leb_negb_ltb (x y : float32) :
  number x -> number y -> F32.leb x y = negb (F32.ltb y x).
Proof.
  unfold F32.number; intros Hx Hy. unfold F32.leb, F32.ltb, SFleb, SFltb.
  rewrite (compare_antisym x y).
  destruct (SFcompare x y) as [c|] eqn:Hc.
  - destruct c; reflexivity.
  - apply compare_nan in Hc. rewrite Hx, Hy in Hc. discriminate.
Qed.

Lemma ltb_number (x y : float32) :
  F32.ltb x y = true -> number x /\ number y.
Proof.
  unfold F32.ltb, SFltb, F32.number.
  destruct x, y; simpl; intro Hlt; try discriminate; split; reflexivity.
Qed.

Lemma leb_number (x y : float32) :
  F32.leb x y = true -> number x /\ number y.
Proof.
  unfold F32.leb, SFleb, F32.number.
  destruct x, y; simpl; intro Hle; try discriminate; split; reflexivity.
Qed.

Lemma leb_refl (x : float32) : number x -> F32.leb x x = true.
Proof.
  intro Hx. unfold F32.leb, SFleb. rewrite (compare_refl x Hx).
  reflexivity.
Qed.

Lemma ltb_irrefl (x : float32) : F32.ltb x x = false.
Proof.
  unfold F32.ltb, SFltb.
  destruct (F32.is_nan x) eqn:Hx.
  - destruct x; try discriminate. reflexivity.
  - rewrite (compare_refl x Hx). reflexivity.
Qed.

Lemma fmin_idem (x : float32) : F32.fmin x x = x.
Proof.
  unfold F32.fmin. rewrite ltb_irrefl.
  destruct x as [s|s| |s m e]; simpl; try reflexivity.
  destruct s; reflexivity.
Qed.

Lemma fmin3_idem (x : float32) : fmin3 x x x = x.
Proof.
  unfold fmin3. change (@fmin float32 _) with F32.fmin.
  rewrite fmin_idem. apply fmin_idem.
Qed.

Lemma leb_zero_iff (x : float32) :
  number x -> (F32.leb x (F32.of_Z 0) = false <-> F32.ltb (F32.of_Z 0) x = true).
Proof.
  intro Hx. rewrite (leb_negb_ltb x _ Hx) by reflexivity.
  destruct (F32.ltb (F32.of_Z 0) x); simpl; split; congruence.
Qed.

(** [max(n, 0)] is a number at least 0 when [n] is a number. *)
Lemma fmax_zero_range (n : float32) :
  number n ->
  number (F32.fmax n (F32.of_Z 0)) /\
  F32.leb (F32.of_Z 0) (F32.fmax n (F32.of_Z 0)) = true.
Proof.
  intro Hn. unfold F32.fmax.
  change (F32.is_nan (F32.of_Z 0)) with false. rewrite orb_false_l.
  destruct (F32.ltb n (F32.of_Z 0)) eqn:Hlt.
  - split; reflexivity.
  - rewrite Hn, orb_false_l.
    destruct (F32.ltb (F32.of_Z 0) n || negb (F32.is_zero n)) eqn:Hc.
    + split; [exact Hn|].
      rewrite (leb_negb_ltb (F32.of_Z 0) n) by (reflexivity || exact Hn).
      rewrite Hlt. reflexivity.
    + split; reflexivity.
Qed.

(** [min(m, b)] stays between 0 and [b] when [m] and [b] are at least 0. *)
Lemma fmin_range (m b : float32) :
  number m ->
  F32.leb (F32.of_Z 0) m = true -> F32.leb (F32.of_Z 0) b = true ->
  F32.leb (F32.of_Z 0) (F32.fmin m b) = true /\
  F32.leb (F32.fmin m b) b = true.
Proof.
  intros Hm Hzm Hb.
  assert (Hnb : number b) by (apply (leb_number _ b Hb)).
  unfold F32.fmin. rewrite Hnb, orb_false_l.
  destruct (F32.ltb b m) eqn:Hbm.
  - split; [exact Hb | apply leb_refl; exact Hnb].
  - rewrite Hm, orb_false_l.
    destruct (F32.ltb m b || negb (F32.is_zero m)) eqn:Hc.
    + split; [exact Hzm|].
      rewrite (leb_negb_ltb m b Hm Hnb), Hbm. reflexivity.
    + apply orb_false_iff in Hc. destruct Hc as [Hmb Hz].
      apply negb_false_iff in Hz.
      destruct m as [sm| | |]; try discriminate.
      destruct b as [sb|sb| |sb mb eb]; try discriminate.
      * split; reflexivity.
      * destruct sb; discriminate.
      * destruct sb; discriminate.
Qed.

Lemma clamp_range (n b : float32) :
  number n -> (zero <=? b)%F = true ->
  (zero <=? fmin (fmax n zero) b)%F = true /\
  (fmin (fmax n zero) b <=? b)%F = true.
Proof.
  intros Hn Hb.
  destruct (fmax_zero_range n Hn) as [Hm Hzm].
  exact (fmin_range _ b Hm Hzm Hb).
Qed.

Lemma clamp_nan (b : float32) : fmin (fmax F32.NaN zero) b = F32.NaN.
Proof. destruct b; reflexivity. Qed.

End F32Facts.

Lemma wrap64_id (z : Z) : is_int z -> wrap64 z = z.
Proof.
  unfold is_int, MinInt, MaxInt, wrap64. intro Hz.
  rewrite Z.mod_small by lia. lia.
Qed.

(* ================================================================== *)
(** * The service-rate profile and the rate range *)
(* ================================================================== *)

Section Profile.
Context {F : Type} `{Arith F}.
Variable parms : ServiceParms F.
Variable requestSize : RequestSize.

Lemma servRateLoop_length (count : nat) (n : Z) (l : list F) :
  length (servRateLoop parms requestSize count n l) = length l.
Proof.
  revert n l. induction count as [|count IH]; intros n l; simpl.
  - reflexivity.
  - rewrite IH. apply length_insert.
Qed.

(** After the loop has run from [n = k + 1] for [count] rounds, the slots
    [k .. k + count - 1] hold the service rates of the batch sizes
    [k + 1 .. k + count]; the other slots are untouched. *)
Lemma servRateLoop_lookup (count k : nat) (l : list F) (i : nat) :
  (i < length l)%nat ->
  servRateLoop parms requestSize count (Z.of_nat k + 1) l !! i =
    if decide (k <= i < k + count)%nat
    then Some (serviceRate parms requestSize (Z.of_nat i + 1))
    else l !! i.
Proof.
  revert k l. induction count as [|count IH]; intros k l Hi; simpl.
  - destruct (decide (k <= i < k + 0)%nat) as [Hk|Hk]; [lia | reflexivity].
  - replace (Z.of_nat k + 1 + 1) with (Z.of_nat (S k) + 1) by lia.
    replace (Z.to_nat (Z.of_nat k + 1 - 1)) with k by lia.
    rewrite IH by (rewrite length_insert; exact Hi).
    destruct (decide (S k <= i < S k + count)%nat) as [Hin|Hout].
    + destruct (decide (k <= i < k + S count)%nat); [reflexivity | lia].
    + destruct (decide (i = k)) as [->|Hne].
      * rewrite list_lookup_insert_eq by exact Hi.
        destruct (decide (k <= k < k + S count)%nat); [reflexivity | lia].
      * rewrite list_lookup_insert_ne by congruence.
        destruct (decide (k <= i < k + S count)%nat); [lia | reflexivity].
Qed.

Lemma servRateProfile_length (maxBatchSize : Z) :
  length (servRateProfile parms requestSize maxBatchSize)
  = Z.to_nat maxBatchSize.
Proof.
  unfold servRateProfile. rewrite servRateLoop_length.
  apply length_replicate.
Qed.

(** The slice has one entry per batch size [1 .. maxBatchSize]:
    [servRate[n-1]] is the service rate at batch size [n]. *)
Lemma servRateProfile_lookup (maxBatchSize n : Z) :
  1 <= n <= maxBatchSize ->
  servRateProfile parms requestSize maxBatchSize !! Z.to_nat (n - 1)
  = Some (serviceRate parms requestSize n).
Proof.
  intro Hn. unfold servRateProfile.
  rewrite (servRateLoop_lookup (Z.to_nat maxBatchSize) 0)
    by (rewrite length_replicate; lia).
  destruct (decide (0 <= Z.to_nat (n - 1) < 0 + Z.to_nat maxBatchSize)%nat);
    [|lia].
  do 2 f_equal. lia.
Qed.

End Profile.

Section Build.
Context {F M : Type} `{Arith F} `{QueueModel F M}.

Lemma check_config (c : Configuration F) :
  Configuration_check c = None ->
  1 <= cfg_MaxBatchSize c /\ 0 <= cfg_MaxQueueSize c /\
  exists prefill decode,
    cfg_ServiceParms c = Some (Build_ServiceParmsRef (Some prefill) (Some decode)).
Proof.
  unfold Configuration_check.
  destruct (cfg_MaxBatchSize c <=? 0) eqn:Hb; [discriminate|].
  destruct (cfg_MaxQueueSize c <? 0) eqn:Hq; [discriminate|].
  destruct (cfg_ServiceParms c) as [[[p|] [d|]]|]; simpl; try discriminate.
  intros _. repeat split; try lia. eauto.
Qed.

Lemma BuildModel_ok (c : Configuration F) (rq : RequestSize)
    (prefill : PrefillParms F) (decode : DecodeParms F) :
  1 <= cfg_MaxBatchSize c ->
  cfg_ServiceParms c = Some (Build_ServiceParmsRef (Some prefill) (Some decode)) ->
  let parms := Build_ServiceParms prefill decode in
  let servRate := servRateProfile parms rq (cfg_MaxBatchSize c) in
  BuildModel c rq =
    Some ({| qa_MaxBatchSize := cfg_MaxBatchSize c;
             qa_MaxQueueSize := cfg_MaxQueueSize c;
             qa_ServiceParms := parms;
             qa_RequestSize := rq;
             qa_RateRange :=
               {| Min := (serviceRate parms rq 1 * Epsilon * thousand)%F;
                  Max := (serviceRate parms rq (cfg_MaxBatchSize c)
                          * (one - Epsilon) * thousand)%F |} |},
          NewMM1ModelStateDependent
            (int_add (cfg_MaxQueueSize c) (cfg_MaxBatchSize c)) servRate).
Proof.
  intros Hb Hp parms servRate. unfold BuildModel. rewrite Hp.
  destruct (cfg_MaxBatchSize c <? 0) eqn:Hneg; [lia|].
  fold parms. fold servRate.
  change 0%nat with (Z.to_nat (1 - 1)).
  unfold servRate.
  rewrite (servRateProfile_lookup parms rq (cfg_MaxBatchSize c) 1) by lia.
  rewrite (servRateProfile_lookup parms rq (cfg_MaxBatchSize c)
             (cfg_MaxBatchSize c)) by lia.
  reflexivity.
Qed.

(** C2 (as amended).  For every configuration and workload accepted by
    validation, [NewQueueAnalyzer] returns an analyzer whose rate range
    has [Min] equal to the service rate at batch size 1 multiplied by
    [Epsilon] (a rate slightly above zero) and [Max] equal to the service
    rate at the maximum batch size multiplied by [1 - Epsilon], both
    multiplied by 1000 to give requests/sec. *)
Theorem rateRange_of_build (c : Configuration F) (rq : RequestSize) :
  Configuration_check c = None ->
  RequestSize_check rq = None ->
  exists (qa : QueueAnalyzer F) (model : M),
    NewQueueAnalyzer c rq = Some (Ok (qa, model)) /\
    qa_MaxBatchSize qa = cfg_MaxBatchSize c /\
    qa_RequestSize qa = rq /\
    Min (qa_RateRange qa)
    = (serviceRate (qa_ServiceParms qa) rq 1 * Epsilon * thousand)%F /\
    Max (qa_RateRange qa)
    = (serviceRate (qa_ServiceParms qa) rq (cfg_MaxBatchSize c)
       * (one - Epsilon) * thousand)%F.
Proof.
  intros Hc Hr. unfold NewQueueAnalyzer. rewrite Hc, Hr.
  destruct (check_config c Hc) as (Hb & _ & prefill & decode & Hp).
  rewrite (BuildModel_ok c rq prefill decode Hb Hp).
  eexists _, _. split; [reflexivity|]. simpl. repeat split.
Qed.
End Build.

(* ================================================================== *)
(** * Sizing *)
(* ================================================================== *)

Section SizeFacts.
Context {F M : Type} `{Arith F} `{QueueModel F M} `{RootFinder F M}.

(** What a successful [Analyze] returns. *)
Lemma Analyze_ok (qa : QueueAnalyzer F) (r : F) (w w' : World F M)
    (metrics : AnalysisMetrics F) :
  Analyze qa r w = (Ok metrics, w') ->
  let model := Solve (r / thousand)%F one (Model w) in
  let effConc :=
    EffectiveConcurrency (GetAvgServTime model) (qa_ServiceParms qa)
      (qa_RequestSize qa) (qa_MaxBatchSize qa) in
  w' = setModel w model /\
  IsValid model = true /\
  AvgNumInServ metrics = GetAvgNumInServers model /\
  AvgPrefillTime metrics
  = PrefillTime (Prefill (qa_ServiceParms qa))
      (AvgInputTokens (qa_RequestSize qa)) effConc /\
  AvgTokenTime metrics = DecodeTime (Decode (qa_ServiceParms qa)) effConc /\
  Rho metrics
  = fmin (fmax (GetAvgNumInServers model / ofInt (qa_MaxBatchSize qa))%F zero)
      one.
Proof.
  unfold Analyze.
  destruct (r <=? zero)%F; [discriminate|].
  destruct (Max (qa_RateRange qa) <? r)%F; [discriminate|].
  destruct (IsValid (Solve (r / thousand)%F one (Model w))) eqn:Hv;
    cbn [negb]; [|discriminate].
  intro Heq. injection Heq as Hm Hw. subst metrics w'.
  repeat split.
Qed.

(** [Size] once its target has passed [check] and the three rates are
    known: one call of [Analyze], and the two reports. *)
Lemma Size_unfold (qa : QueueAnalyzer F) (tp : TargetPerf F)
    (w w1 : World F M) (lT lI lP : F) :
  TargetPerf_check tp = None ->
  Size_rates qa tp w = (Ok (lT, lI, lP), w1) ->
  Size qa tp w =
    match Analyze qa (chosenRate lT lI lP) w1 with
    | (Ok metrics, w') =>
        (Ok (targetRateOf lT lI lP, metrics, achievedOf qa metrics), w')
    | (Err e, w') => (Err e, w')
    end.
Proof.
  intros Hc Hr. unfold Size. rewrite Hc. unfold bind at 1. rewrite Hr.
  unfold bind.
  destruct (Analyze qa (chosenRate lT lI lP) w1) as [[metrics|e] w'];
    reflexivity.
Qed.

Lemma Size_rates_error (qa : QueueAnalyzer F) (tp : TargetPerf F)
    (w w1 : World F M) (e : error) :
  TargetPerf_check tp = None ->
  Size_rates qa tp w = (Err e, w1) ->
  Size qa tp w = (Err e, w1).
Proof.
  intros Hc Hr. unfold Size. rewrite Hc. unfold bind. rewrite Hr.
  reflexivity.
Qed.

Lemma Size_inv (qa : QueueAnalyzer F) (tp : TargetPerf F)
    (w w' : World F M) (tr : TargetRate F) (metrics : AnalysisMetrics F)
    (ach : TargetPerf F) :
  Size qa tp w = (Ok (tr, metrics, ach), w') ->
  exists (lT lI lP : F) (w1 : World F M),
    Size_rates qa tp w = (Ok (lT, lI, lP), w1) /\
    Analyze qa (chosenRate lT lI lP) w1 = (Ok metrics, w') /\
    tr = targetRateOf lT lI lP /\
    ach = achievedOf qa metrics.
Proof.
  intro HS. unfold Size in HS.
  destruct (TargetPerf_check tp) as [e|] eqn:Hc; [discriminate|].
  unfold bind in HS.
  destruct (Size_rates qa tp w) as [[[[lT lI] lP]|e] w1] eqn:Hr;
    [|discriminate].
  destruct (Analyze qa (chosenRate lT lI lP) w1) as [[m|e] w2] eqn:Ha;
    [|discriminate].
  unfold ret in HS. injection HS as Htr Hm Hach Hw. subst.
  exists lT, lI, lP, w1. repeat split; assumption.
Qed.

(** C7.  For every successful call of [Size]: the final metrics are those
    of [Analyze] at the minimum of the three per-objective rates
    multiplied by 1000; the fields of the returned [TargetRate] are the
    three per-objective rates, each multiplied by 1000; and the achieved
    [TargetPerf] is [{TTFT: AvgWaitTime + AvgPrefillTime, ITL:
    AvgTokenTime, TPS: Throughput * AvgOutputTokens}] of those metrics. *)
Theorem Size_reports (qa : QueueAnalyzer F) (tp : TargetPerf F)
    (w w' : World F M) (tr : TargetRate F) (metrics : AnalysisMetrics F)
    (ach : TargetPerf F) :
  Size qa tp w = (Ok (tr, metrics, ach), w') ->
  exists (lambdaStarTTFT lambdaStarITL lambdaStarTPS : F) (w1 : World F M),
    Size_rates qa tp w
      = (Ok (lambdaStarTTFT, lambdaStarITL, lambdaStarTPS), w1) /\
    Analyze qa
      (fmin (fmin lambdaStarTTFT lambdaStarITL) lambdaStarTPS * thousand)%F w1
      = (Ok metrics, w') /\
    RateTargetTTFT tr = (lambdaStarTTFT * thousand)%F /\
    RateTargetITL tr = (lambdaStarITL * thousand)%F /\
    RateTargetTPS tr = (lambdaStarTPS * thousand)%F /\
    TargetTTFT ach = (AvgWaitTime metrics + AvgPrefillTime metrics)%F /\
    TargetITL ach = AvgTokenTime metrics /\
    TargetTPS ach
    = (Throughput metrics * ofInt (AvgOutputTokens (qa_RequestSize qa)))%F.
Proof.
  intro HS. destruct (Size_inv _ _ _ _ _ _ _ HS)
    as (lT & lI & lP & w1 & Hr & Ha & -> & ->).
  exists lT, lI, lP, w1. repeat split; assumption.
Qed.

(** C8.  In a call of [Size] whose target passes [check]: when
    [targetTTFT > 0] and the search over [lambdaMin, lambdaMax] returns a
    negative boundary indicator, and likewise when the TTFT stage has
    passed, [targetITL > 0] and its search returns a negative indicator,
    [Size] fails with the error wrapping "target is below the bounded
    region" and returns no rates, metrics or achieved values. *)
Theorem Size_target_below_region (qa : QueueAnalyzer F) (tp : TargetPerf F)
    (w : World F M) :
  TargetPerf_check tp = None ->
  let lambdaMin := (Min (qa_RateRange qa) / thousand)%F in
  let lambdaMax := (Max (qa_RateRange qa) / thousand)%F in
  (forall (x : F) (ind : Z) (err : option error) (w1 : World F M),
     (zero <? TargetTTFT tp)%F = true ->
     BinarySearch lambdaMin lambdaMax (TargetTTFT tp) EvalTTFT
       (setEvalGlobals qa w) = ((x, ind, err), w1) ->
     ind < 0 ->
     Size qa tp w = (Err (FailedLambdaStarTTFT ind TargetBelowRegion), w1))
  /\
  (forall (lambdaStarTTFT x : F) (ind : Z) (err : option error)
          (w1 w2 : World F M),
     Size_TTFT qa tp (setEvalGlobals qa w) = (Ok lambdaStarTTFT, w1) ->
     (zero <? TargetITL tp)%F = true ->
     BinarySearch lambdaMin lambdaMax (TargetITL tp) EvalITL w1
       = ((x, ind, err), w2) ->
     ind < 0 ->
     Size qa tp w = (Err (FailedLambdaStarITL ind TargetBelowRegion), w2)).
Proof.
  intros Hc lambdaMin lambdaMax. split.
  - intros x ind err w1 Hpos Hs Hind.
    apply Size_rates_error; [exact Hc|].
    unfold Size_rates, bind, Size_TTFT. rewrite Hpos.
    fold lambdaMin lambdaMax. rewrite Hs.
    destruct (ind <? 0) eqn:Hneg; [reflexivity | lia].
  - intros lT x ind err w1 w2 Ht Hpos Hs Hind.
    apply Size_rates_error; [exact Hc|].
    unfold Size_rates, bind. rewrite Ht.
    unfold Size_ITL. rewrite Hpos. fold lambdaMin lambdaMax. rewrite Hs.
    destruct (ind <? 0) eqn:Hneg; [reflexivity | lia].
Qed.

Section Overwrite.
(** What the round trip needs of the solver: solving again at the same
    arguments leaves the solved model as it is. *)
Hypothesis Solve_overwrites :
  forall (x p : F) (m : M), Solve x p (Solve x p m) = Solve x p m.

Lemma Analyze_again (qa : QueueAnalyzer F) (r : F) (w w' : World F M)
    (metrics : AnalysisMetrics F) :
  Analyze qa r w = (Ok metrics, w') ->
  Analyze qa r w' = (Ok metrics, w').
Proof.
  unfold Analyze.
  destruct (r <=? zero)%F; [discriminate|].
  destruct (Max (qa_RateRange qa) <? r)%F; [discriminate|].
  destruct (IsValid (Solve (r / thousand)%F one (Model w))) eqn:Hv;
    simpl; [|discriminate].
  intro Heq. injection Heq as Hm Hw. subst w'. simpl.
  rewrite Solve_overwrites, Hv. simpl. rewrite <- Hm.
  unfold setModel. simpl. reflexivity.
Qed.

(** C9.  With a solver whose [Solve] overwrites the solved state: after
    a successful call of [Size], [Analyze] on the same analyzer at the
    rate [Size] chose (the minimum of the three per-objective rates,
    multiplied by 1000) returns the metrics [Size] returned; and a
    successful [Analyze] repeated at the same rate returns the same
    metrics. *)
Theorem Size_then_Analyze (qa : QueueAnalyzer F) (tp : TargetPerf F)
    (w w' : World F M) (tr : TargetRate F) (metrics : AnalysisMetrics F)
    (ach : TargetPerf F) :
  Size qa tp w = (Ok (tr, metrics, ach), w') ->
  (exists (lambdaStarTTFT lambdaStarITL lambdaStarTPS : F)
          (w1 : World F M),
     Size_rates qa tp w
       = (Ok (lambdaStarTTFT, lambdaStarITL, lambdaStarTPS), w1) /\
     Analyze qa
       (fmin (fmin lambdaStarTTFT lambdaStarITL) lambdaStarTPS * thousand)%F
       w'
     = (Ok metrics, w')) /\
  (forall (r : F) (v v' : World F M) (m : AnalysisMetrics F),
     Analyze qa r v = (Ok m, v') -> Analyze qa r v' = (Ok m, v')).
Proof.
  intro HS. split.
  - destruct (Size_inv _ _ _ _ _ _ _ HS)
      as (lT & lI & lP & w1 & Hr & Ha & _ & _).
    exists lT, lI, lP, w1. split; [exact Hr|].
    exact (Analyze_again _ _ _ _ _ Ha).
  - intros r v v' m. apply Analyze_again.
Qed.
End Overwrite.

End SizeFacts.


(* ================================================================== *)
(** * The analyzer at binary32 *)
(* ================================================================== *)

Section Float32Analyzer.
Context {M : Type} `{QueueModel float32 M} `{RootFinder float32 M}.
Import F32Facts.

Lemma Analyze_cases (qa : QueueAnalyzer float32) (r : float32)
    (w : World float32 M) :
  let model := Solve (r / thousand)%F one (Model w) in
  ((r <=? zero)%F = true /\ Analyze qa r w = (Err InvalidRate, w)) \/
  ((r <=? zero)%F = false /\ (Max (qa_RateRange qa) <? r)%F = true /\
   Analyze qa r w = (Err RateOutOfRange, w)) \/
  ((r <=? zero)%F = false /\ (Max (qa_RateRange qa) <? r)%F = false /\
   IsValid model = false /\
   Analyze qa r w = (Err ModelDivergence, setModel w model)) \/
  ((r <=? zero)%F = false /\ (Max (qa_RateRange qa) <? r)%F = false /\
   IsValid model = true /\
   exists metrics, Analyze qa r w = (Ok metrics, setModel w model)).
Proof.
  intro model. unfold Analyze. fold model.
  destruct (r <=? zero)%F; [left; split; reflexivity|].
  destruct (Max (qa_RateRange qa) <? r)%F;
    [right; left; repeat split; reflexivity|].
  destruct (IsValid model); simpl.
  - right; right; right. repeat split. eexists. reflexivity.
  - right; right; left. repeat split.
Qed.

Lemma leb_zero_false (r : float32) :
  number r -> ((r <=? zero)%F = false <-> (zero <? r)%F = true).
Proof. exact (leb_zero_iff r). Qed.

Lemma Analyze_InvalidRate (qa : QueueAnalyzer float32) (r : float32)
    (w : World float32 M) :
  fst (Analyze qa r w) = Err InvalidRate <-> (r <=? zero)%F = true.
Proof.
  destruct (Analyze_cases qa r w)
    as [[Hle Ha]|[(Hle & _ & Ha)|[(Hle & _ & _ & Ha)|(Hle & _ & _ & m & Ha)]]];
    rewrite Ha; cbn [fst]; split; intro Hx; congruence.
Qed.

Lemma Analyze_RateOutOfRange (qa : QueueAnalyzer float32) (r : float32)
    (w : World float32 M) :
  fst (Analyze qa r w) = Err RateOutOfRange <->
  (zero <? r)%F = true /\ (Max (qa_RateRange qa) <? r)%F = true.
Proof.
  destruct (Analyze_cases qa r w)
    as [[Hle Ha]|[(Hle & Hlt & Ha)|[(Hle & Hlt & _ & Ha)|(Hle & Hlt & _ & m & Ha)]]];
    rewrite Ha; cbn [fst]; split; try discriminate; try (intros [_ Hx]; congruence).
  - intros [Hpos _]. destruct (ltb_number _ _ Hpos) as [_ Hn].
    apply (leb_zero_false r Hn) in Hpos. congruence.
  - intros _. split; [|exact Hlt].
    destruct (ltb_number _ _ Hlt) as [_ Hn].
    apply (leb_zero_false r Hn). exact Hle.
Qed.

(** C3 (as amended).  For every analyzer and every request rate,
    [Analyze] fails with the invalid-rate error exactly when
    [requestRate <= 0]; it fails with the rate-out-of-range error exactly
    when [requestRate > 0] and [requestRate > rateRange.Max] (the first
    test runs first), so a rate equal to [rateRange.Max] is never out of
    range; otherwise, when the solved model is valid, it succeeds and
    returns metrics. *)
Theorem Analyze_rate_errors (qa : QueueAnalyzer float32) (r : float32)
    (w : World float32 M) :
  (fst (Analyze qa r w) = Err InvalidRate <-> (r <=? zero)%F = true) /\
  (fst (Analyze qa r w) = Err RateOutOfRange <->
     (zero <? r)%F = true /\ (Max (qa_RateRange qa) <? r)%F = true) /\
  fst (Analyze qa (Max (qa_RateRange qa)) w) <> Err RateOutOfRange /\
  ((r <=? zero)%F = false ->
   (Max (qa_RateRange qa) <? r)%F = false ->
   IsValid (Solve (r / thousand)%F one (Model w)) = true ->
   exists metrics, fst (Analyze qa r w) = Ok metrics).
Proof.
  split; [apply Analyze_InvalidRate|].
  split; [apply Analyze_RateOutOfRange|].
  split.
  - intro Ha. apply Analyze_RateOutOfRange in Ha. destruct Ha as [_ Hlt].
    change (@ltb float32 _) with F32.ltb in Hlt.
    rewrite ltb_irrefl in Hlt. discriminate.
  - intros Hle Hlt Hv.
    destruct (Analyze_cases qa r w)
      as [[Hle' _]|[(_ & Hlt' & _)|[(_ & _ & Hv' & _)|(_ & _ & _ & m & Ha)]]];
      try congruence.
    exists m. rewrite Ha. reflexivity.
Qed.

(** C1 (as amended).  With the three targets 0, every per-objective rate
    of [Size] is [rateRange.Max / 1000], the margin
    [1 - StabilitySafetyFraction] is not applied (it is applied to the
    TPS rate only under [targetTPS > 0]), the final metrics are evaluated
    at [(rateRange.Max / 1000) * 1000], and [Size] succeeds exactly when
    [Analyze] does at that rate. *)
Theorem Size_without_targets (qa : QueueAnalyzer float32)
    (w : World float32 M) :
  let noTargets :=
    {| TargetTTFT := zero; TargetITL := zero; TargetTPS := zero |} in
  let lambdaMax := (Max (qa_RateRange qa) / thousand)%F in
  let requestRate := (lambdaMax * thousand)%F in
  Size_rates qa noTargets w
    = (Ok (lambdaMax, lambdaMax, lambdaMax), setEvalGlobals qa w) /\
  (forall tp : TargetPerf float32,
     Size_TPS qa tp =
       if (zero <? TargetTPS tp)%F
       then (lambdaMax * (one - StabilitySafetyFraction))%F
       else lambdaMax) /\
  chosenRate lambdaMax lambdaMax lambdaMax = requestRate /\
  Size qa noTargets w =
    match Analyze qa requestRate (setEvalGlobals qa w) with
    | (Ok metrics, w') =>
        (Ok (targetRateOf lambdaMax lambdaMax lambdaMax, metrics,
             achievedOf qa metrics), w')
    | (Err e, w') => (Err e, w')
    end.
Proof.
  intros noTargets lambdaMax requestRate.
  assert (Hr : Size_rates qa noTargets w
               = (Ok (lambdaMax, lambdaMax, lambdaMax), setEvalGlobals qa w))
    by reflexivity.
  assert (Hc : chosenRate lambdaMax lambdaMax lambdaMax = requestRate).
  { unfold chosenRate, requestRate. rewrite fmin3_idem. reflexivity. }
  split; [exact Hr|]. split; [reflexivity|]. split; [exact Hc|].
  assert (Hk : TargetPerf_check noTargets = None) by reflexivity.
  rewrite (Size_unfold qa noTargets w _ _ _ _ Hk Hr), Hc.
  reflexivity.
Qed.

(** Where the quotient is a number, the clamp does what it is there for. *)
Lemma EffectiveConcurrency_in_range (avgServiceTime : float32)
    (parms : ServiceParms float32) (rq : RequestSize) (maxBatchSize : Z) :
  let tokens : float32 := ofInt (int_sub (AvgOutputTokens rq) 1) in
  let n := ((avgServiceTime
             - (Gamma (Prefill parms) + Alpha (Decode parms) * tokens))
            / concurrencyDenominator parms rq)%F in
  number n ->
  ((zero : float32) <=? ofInt maxBatchSize)%F = true ->
  (zero <=? EffectiveConcurrency avgServiceTime parms rq maxBatchSize)%F = true /\
  (EffectiveConcurrency avgServiceTime parms rq maxBatchSize
     <=? ofInt maxBatchSize)%F = true.
Proof.
  intros tokens n Hn Hb. unfold EffectiveConcurrency.
  apply clamp_range; [exact Hn | exact Hb].
Qed.

Lemma Rho_in_range (qa : QueueAnalyzer float32) (r : float32)
    (w w' : World float32 M) (metrics : AnalysisMetrics float32) :
  Analyze qa r w = (Ok metrics, w') ->
  number (AvgNumInServ metrics / ofInt (qa_MaxBatchSize qa))%F ->
  (zero <=? Rho metrics)%F = true /\ (Rho metrics <=? one)%F = true.
Proof.
  intros Ha Hn.
  destruct (Analyze_ok qa r w w' metrics Ha) as (_ & _ & Hs & _ & _ & Hrho).
  rewrite Hrho. rewrite Hs in Hn.
  apply clamp_range; [exact Hn | reflexivity].
Qed.

End Float32Analyzer.

(* ================================================================== *)
(** * The formulas in exact arithmetic *)
(* ================================================================== *)

Module Exact.
Local Open Scope Q_scope.

Lemma serviceTime_affine (parms : ServiceParms Q) (rq : RequestSize) (x : Q) :
  serviceTime parms rq x == baseTime parms rq + slopeTime parms rq * x.
Proof.
  unfold serviceTime, PrefillTime, DecodeTime, baseTime, slopeTime.
  cbn [add mul ofInt Arith_Q zero].
  destruct (AvgInputTokens rq =? 0)%Z; ring.
Qed.

Lemma Qdiv_le_cross (a b d1 d2 : Q) :
  0 < d1 -> 0 < d2 -> a * d2 <= b * d1 -> a / d1 <= b / d2.
Proof.
  intros H1 H2 Hc.
  apply Qle_shift_div_r; [exact H1|].
  assert (He : b / d2 * d1 == b * d1 / d2) by (field; lra).
  rewrite He.
  apply Qle_shift_div_l; assumption.
Qed.

Section Workload.
Variable parms : ServiceParms Q.
Variable rq : RequestSize.
Hypothesis Hparms : nonnegative parms.
Hypothesis Hin : (0 <= AvgInputTokens rq)%Z.
Hypothesis Hout : (1 <= AvgOutputTokens rq <= MaxInt)%Z.

Lemma tokens_nonneg : 0 <= inject_Z (int_sub (AvgOutputTokens rq) 1).
Proof.
  unfold int_sub. rewrite wrap64_id by (unfold is_int, MinInt, MaxInt in *; lia).
  change 0 with (inject_Z 0). rewrite <- Zle_Qle. lia.
Qed.

Lemma baseTime_nonneg : 0 <= baseTime parms rq.
Proof.
  destruct Hparms. pose proof tokens_nonneg as Ht. unfold baseTime.
  destruct (AvgInputTokens rq =? 0)%Z; nra.
Qed.

Lemma slopeTime_nonneg : 0 <= slopeTime parms rq.
Proof.
  destruct Hparms. pose proof tokens_nonneg as Ht. unfold slopeTime.
  assert (Hi : 0 <= inject_Z (AvgInputTokens rq)).
  { change 0 with (inject_Z 0). rewrite <- Zle_Qle. exact Hin. }
  destruct (AvgInputTokens rq =? 0)%Z; nra.
Qed.

Hypothesis Hpos : 0 < serviceTime parms rq 1.

Lemma serviceTime_pos (n : Z) :
  (1 <= n)%Z -> 0 < serviceTime parms rq (inject_Z n).
Proof.
  intro Hn. rewrite serviceTime_affine. rewrite serviceTime_affine in Hpos.
  pose proof slopeTime_nonneg as Hs.
  assert (Hq : 1 <= inject_Z n).
  { change 1 with (inject_Z 1). rewrite <- Zle_Qle. exact Hn. }
  nra.
Qed.

Lemma serviceRate_monotone (n m : Z) :
  (1 <= n <= m)%Z -> serviceRate parms rq n <= serviceRate parms rq m.
Proof.
  intros [Hn Hm]. unfold serviceRate. cbn [div ofInt Arith_Q].
  apply Qdiv_le_cross; try (apply serviceTime_pos; lia).
  rewrite !serviceTime_affine.
  pose proof baseTime_nonneg as Hb.
  assert (Hq1 : 1 <= inject_Z n).
  { change 1 with (inject_Z 1). rewrite <- Zle_Qle. exact Hn. }
  assert (Hq2 : inject_Z n <= inject_Z m) by (rewrite <- Zle_Qle; exact Hm).
  nra.
Qed.

Lemma serviceRate_pos : 0 < serviceRate parms rq 1.
Proof.
  unfold serviceRate. cbn [div ofInt Arith_Q].
  change (inject_Z 1) with 1.
  apply Qlt_shift_div_l; [exact Hpos | lra].
Qed.

End Workload.

Section Claims.
Context {M : Type} `{QueueModel Q M}.


End Claims.
End Exact.

(* ================================================================== *)
(** * The statements on concrete inputs *)
(* ================================================================== *)

Module Instances.
Import Reference Inputs.

(** C1 as stated fails on the scenario of the specification: with the
    three targets 0 the rate handed to [Analyze] is [rateRange.Max]
    itself, not [rateRange.Max * (1 - StabilitySafetyFraction)]. *)
Lemma no_target_rate_is_the_maximum :
  NewQueueAnalyzer scenarioConfig scenarioSize
    = Some (Ok (scenario, Model scenarioWorld)) /\
  fst (Size_rates scenario noTargets scenarioWorld)
    = Ok (scenarioLambdaMax, scenarioLambdaMax, scenarioLambdaMax) /\
  chosenRate scenarioLambdaMax scenarioLambdaMax scenarioLambdaMax
    = Max (qa_RateRange scenario) /\
  chosenRate scenarioLambdaMax scenarioLambdaMax scenarioLambdaMax
    <> (Max (qa_RateRange scenario) * (one - StabilitySafetyFraction))%F /\
  (exists tr metrics achieved,
     fst (Size scenario noTargets scenarioWorld) = Ok (tr, metrics, achieved) /\
     RateTargetTPS tr = Max (qa_RateRange scenario)).
Proof.
  repeat split; try (vm_compute; reflexivity).
  - vm_compute. discriminate.
  - eexists _, _, _. split; vm_compute; reflexivity.
Qed.

(** C2 as stated fails on the scenario: [Min] is not the service rate at
    batch size 1 reduced by the fraction [Epsilon]; it is that rate
    multiplied by [Epsilon]. *)
Lemma rateRange_min_is_near_zero :
  NewQueueAnalyzer scenarioConfig scenarioSize
    = Some (Ok (scenario, Model scenarioWorld)) /\
  Min (qa_RateRange scenario)
    <> (serviceRate scenarioParms scenarioSize 1 * (one - Epsilon) * thousand)%F /\
  Min (qa_RateRange scenario)
    = (serviceRate scenarioParms scenarioSize 1 * Epsilon * thousand)%F.
Proof.
  repeat split; try (vm_compute; reflexivity). vm_compute. discriminate.
Qed.

Lemma rateRange_of_build_witness :
  Configuration_check scenarioConfig = None /\
  RequestSize_check scenarioSize = None /\
  exists (qa : QueueAnalyzer float32) (model : MM1 float32),
    NewQueueAnalyzer scenarioConfig scenarioSize = Some (Ok (qa, model)) /\
    qa_MaxBatchSize qa = 4 /\
    qa_RequestSize qa = scenarioSize /\
    Min (qa_RateRange qa)
    = (serviceRate (qa_ServiceParms qa) scenarioSize 1 * Epsilon * thousand)%F /\
    Max (qa_RateRange qa)
    = (serviceRate (qa_ServiceParms qa) scenarioSize 4
       * (one - Epsilon) * thousand)%F.
Proof.
  split; [reflexivity|]. split; [reflexivity|].
  apply (rateRange_of_build scenarioConfig scenarioSize); reflexivity.
Defined.

(** C3 as stated fails on an analyzer built from a negative base cost:
    its [rateRange.Max] is negative, the rate -1 is above it, and
    [Analyze] fails with the invalid-rate error, not with
    rate-out-of-range. *)
Lemma negative_rate_above_negative_max :
  NewQueueAnalyzer negativeConfig unitSize
    = Some (Ok (negativeAnalyzer, Model negativeWorld)) /\
  (Max (qa_RateRange negativeAnalyzer) <? ofInt (-1))%F = true /\
  fst (Analyze negativeAnalyzer (ofInt (-1)) negativeWorld) = Err InvalidRate /\
  fst (Analyze negativeAnalyzer (ofInt (-1)) negativeWorld)
    <> Err RateOutOfRange.
Proof.
  repeat split; try (vm_compute; reflexivity). vm_compute. discriminate.
Qed.



(** C4 fails on the code: where the divisor of [EffectiveConcurrency] is 0
    and the reported service time equals the base cost, the quotient is
    0/0 = NaN, which [min(max(n, 0), maxBatchSize)] returns unchanged.
    NaN is neither [>= 0] nor [<= maxBatchSize], and the prefill and token
    times derived from it are NaN. *)
Theorem EffectiveConcurrency_not_a_number :
  (concurrencyDenominator constantParms scenarioSize = zero /\
   EffectiveConcurrency (ofInt 2030) constantParms scenarioSize 4 = F32.NaN) /\
  (RequestSize_check emptySize = None /\
   concurrencyDenominator scenarioParms emptySize = zero /\
   EffectiveConcurrency (ofInt 50) scenarioParms emptySize 4 = F32.NaN) /\
  ((zero <=? F32.NaN)%F = false /\ (F32.NaN <=? ofInt 4)%F = false) /\
  (DecodeTime (Decode constantParms) F32.NaN = F32.NaN /\
   PrefillTime (Prefill constantParms) 500 F32.NaN = F32.NaN /\
   fmin (fmax F32.NaN zero) one = F32.NaN).
Proof. repeat split; vm_compute; reflexivity. Qed.

(** C10 fails on the code: the workload of no input token and a single
    output token passes validation, and there the divisor of every
    service rate and the divisor of [EffectiveConcurrency] are 0; the
    service rates and both ends of the rate range are +Inf. *)
Theorem zero_divisors_pass_validation :
  Configuration_check scenarioConfig = None /\
  RequestSize_check emptySize = None /\
  map (fun n : Z => serviceTime scenarioParms emptySize (ofInt n)) [1; 2; 3; 4]
    = [zero; zero; zero; zero] /\
  servRateProfile scenarioParms emptySize 4
    = [F32.PInf; F32.PInf; F32.PInf; F32.PInf] /\
  concurrencyDenominator scenarioParms emptySize = zero /\
  NewQueueAnalyzer scenarioConfig emptySize
    = Some (Ok (analyzerOf scenarioConfig emptySize,
                Model (worldOf scenarioConfig emptySize))) /\
  qa_RateRange (analyzerOf scenarioConfig emptySize)
    = {| Min := F32.PInf; Max := F32.PInf |}.
Proof. repeat split; vm_compute; reflexivity. Qed.

Lemma Size_reports_witness :
  exists (tr : TargetRate float32) (metrics : AnalysisMetrics float32)
         (ach : TargetPerf float32) (w' : World float32 (MM1 float32)),
    Size scenario someTargets scenarioWorld = (Ok (tr, metrics, ach), w') /\
    exists (lambdaStarTTFT lambdaStarITL lambdaStarTPS : float32)
           (w1 : World float32 (MM1 float32)),
      Size_rates scenario someTargets scenarioWorld
        = (Ok (lambdaStarTTFT, lambdaStarITL, lambdaStarTPS), w1) /\
      Analyze scenario
        (fmin (fmin lambdaStarTTFT lambdaStarITL) lambdaStarTPS * thousand)%F w1
        = (Ok metrics, w') /\
      RateTargetTTFT tr = (lambdaStarTTFT * thousand)%F /\
      RateTargetITL tr = (lambdaStarITL * thousand)%F /\
      RateTargetTPS tr = (lambdaStarTPS * thousand)%F /\
      TargetTTFT ach = (AvgWaitTime metrics + AvgPrefillTime metrics)%F /\
      TargetITL ach = AvgTokenTime metrics /\
      TargetTPS ach
      = (Throughput metrics * ofInt (AvgOutputTokens (qa_RequestSize scenario)))%F.
Proof.
  eexists _, _, _, _.
  refine ((fun HS => conj HS (Size_reports _ _ _ _ _ _ _ HS)) _).
  vm_compute. reflexivity.
Defined.

Lemma Size_target_below_region_witness :
  (exists (x : float32) (ind : Z) (err : option error)
          (w1 : World float32 (MM1 float32)),
     BinarySearch scenarioLambdaMin scenarioLambdaMax (TargetTTFT hastyTTFT) EvalTTFT
       (setEvalGlobals scenario scenarioWorld) = ((x, ind, err), w1) /\
     ind < 0 /\
     Size scenario hastyTTFT scenarioWorld
       = (Err (FailedLambdaStarTTFT ind TargetBelowRegion), w1)) /\
  (exists (lambdaStarTTFT x : float32) (ind : Z) (err : option error)
          (w1 w2 : World float32 (MM1 float32)),
     Size_TTFT scenario hastyITL (setEvalGlobals scenario scenarioWorld)
       = (Ok lambdaStarTTFT, w1) /\
     BinarySearch scenarioLambdaMin scenarioLambdaMax (TargetITL hastyITL) EvalITL w1
       = ((x, ind, err), w2) /\
     ind < 0 /\
     Size scenario hastyITL scenarioWorld
       = (Err (FailedLambdaStarITL ind TargetBelowRegion), w2)).
Proof.
  unfold scenarioLambdaMin, scenarioLambdaMax.
  assert (HcT : TargetPerf_check hastyTTFT = None) by reflexivity.
  assert (HcI : TargetPerf_check hastyITL = None) by reflexivity.
  pose proof (Size_target_below_region scenario hastyTTFT scenarioWorld HcT)
    as [Httft _].
  pose proof (Size_target_below_region scenario hastyITL scenarioWorld HcI)
    as [_ Hitl].
  cbv zeta in Httft, Hitl.
  split.
  - eexists _, _, _, _.
    split; [vm_compute; reflexivity|]. split; [reflexivity|].
    eapply Httft; [reflexivity | vm_compute; reflexivity | reflexivity].
  - eexists _, _, _, _, _, _.
    split; [vm_compute; reflexivity|].
    split; [vm_compute; reflexivity|]. split; [reflexivity|].
    eapply Hitl;
      [vm_compute; reflexivity | reflexivity | vm_compute; reflexivity
      | reflexivity].
Defined.

Lemma Size_then_Analyze_witness :
  (forall (x p : float32) (m : MM1 float32),
     Solve x p (Solve x p m) = Solve x p m) /\
  exists (tr : TargetRate float32) (metrics : AnalysisMetrics float32)
         (ach : TargetPerf float32) (w' : World float32 (MM1 float32)),
    Size scenario someTargets scenarioWorld = (Ok (tr, metrics, ach), w') /\
    (exists (lambdaStarTTFT lambdaStarITL lambdaStarTPS : float32)
            (w1 : World float32 (MM1 float32)),
       Size_rates scenario someTargets scenarioWorld
         = (Ok (lambdaStarTTFT, lambdaStarITL, lambdaStarTPS), w1) /\
       Analyze scenario
         (fmin (fmin lambdaStarTTFT lambdaStarITL) lambdaStarTPS * thousand)%F
         w'
       = (Ok metrics, w')) /\
    (forall (r : float32) (v v' : World float32 (MM1 float32))
            (m : AnalysisMetrics float32),
       Analyze scenario r v = (Ok m, v') -> Analyze scenario r v' = (Ok m, v')).
Proof.
  assert (Hov : forall (x p : float32) (m : MM1 float32),
            Solve x p (Solve x p m) = Solve x p m)
    by (intros x p m; reflexivity).
  split; [exact Hov|].
  eexists _, _, _, _.
  refine ((fun HS => conj HS (Size_then_Analyze Hov _ _ _ _ _ _ _ HS)) _).
  vm_compute. reflexivity.
Defined.


End Instances.

(* ================================================================== *)
(** * Further properties: building *)
(* ================================================================== *)

Section BuildExtras.
Context {F M : Type} `{Arith F} `{QueueModel F M}.

Lemma Configuration_check_iff (c : Configuration F) :
  Configuration_check c = None <-> valid_Configuration c.
Proof.
  split; [apply check_config|].
  intros (Hb & Hq & p & d & Hp). unfold Configuration_check. rewrite Hp.
  destruct (cfg_MaxBatchSize c <=? 0) eqn:E1; [lia|].
  destruct (cfg_MaxQueueSize c <? 0) eqn:E2; [lia|]. reflexivity.
Qed.

Lemma Configuration_check_error (c : Configuration F) :
  Configuration_check c = None \/ Configuration_check c = Some InvalidConfig.
Proof.
  unfold Configuration_check.
  destruct (_ || _ || _); [right | left]; reflexivity.
Qed.

Lemma RequestSize_check_iff (rq : RequestSize) :
  RequestSize_check rq = None <-> valid_RequestSize rq.
Proof.
  unfold RequestSize_check, valid_RequestSize.
  destruct (AvgInputTokens rq <? 0) eqn:E1;
    destruct (AvgOutputTokens rq <? 1) eqn:E2; simpl;
    split; intro Hx; try discriminate; try reflexivity; lia.
Qed.

Lemma RequestSize_check_error (rq : RequestSize) :
  RequestSize_check rq = None \/ RequestSize_check rq = Some InvalidWorkload.
Proof.
  unfold RequestSize_check.
  destruct (_ || _); [right | left]; reflexivity.
Qed.



End BuildExtras.

Section ProfileExtras.
Context {F : Type} `{Arith F}.

Lemma batchSizes_length (count : nat) (n : Z) :
  length (batchSizes count n) = count.
Proof.
  revert n. induction count as [|count IH]; intro n; simpl;
    [reflexivity | rewrite IH; reflexivity].
Qed.

Lemma batchSizes_lookup (count : nat) (n : Z) (i : nat) :
  (i < count)%nat -> batchSizes count n !! i = Some (n + Z.of_nat i).
Proof.
  revert n i. induction count as [|count IH]; intros n i Hi; [lia|].
  destruct i as [|i]; simpl.
  - f_equal. lia.
  - rewrite IH by lia. f_equal. lia.
Qed.

(** X3.  The loop of [BuildModel] fills every slot of the slice: the
    profile has one entry per batch size 1, 2, ..., [maxBatchSize], in
    this order, each the service rate at that batch size. *)
Theorem servRateProfile_map (parms : ServiceParms F) (rq : RequestSize)
    (maxBatchSize : Z) :
  servRateProfile parms rq maxBatchSize
  = map (serviceRate parms rq) (batchSizes (Z.to_nat maxBatchSize) 1).
Proof.
  apply list_eq. intro i.
  rewrite list_lookup_fmap.
  destruct (decide (i < Z.to_nat maxBatchSize)%nat) as [Hi|Hi].
  - rewrite batchSizes_lookup by exact Hi. simpl.
    replace i with (Z.to_nat ((1 + Z.of_nat i) - 1)) at 1 by lia.
    apply servRateProfile_lookup. lia.
  - rewrite (lookup_ge_None_2 (batchSizes _ _))
      by (rewrite batchSizes_length; lia).
    apply lookup_ge_None_2. rewrite servRateProfile_length. lia.
Qed.
End ProfileExtras.

Section Occupancy.
Context {F M : Type} `{Arith F} `{QueueModel F M}.

End Occupancy.

(* ================================================================== *)
(** * Further properties: analysis and sizing *)
(* ================================================================== *)

Section AnalyzeExtras.
Context {F M : Type} `{Arith F} `{QueueModel F M} `{RootFinder F M}.

Lemma Analyze_split (qa : QueueAnalyzer F) (r : F) (w : World F M) :
  let model := Solve (r / thousand)%F one (Model w) in
  Analyze qa r w = (Err InvalidRate, w) \/
  Analyze qa r w = (Err RateOutOfRange, w) \/
  (IsValid model = false /\
   Analyze qa r w = (Err ModelDivergence, setModel w model)) \/
  (IsValid model = true /\
   exists metrics, Analyze qa r w = (Ok metrics, setModel w model)).
Proof.
  intro model. unfold Analyze. fold model.
  destruct (r <=? zero)%F; [left; reflexivity|].
  destruct (Max (qa_RateRange qa) <? r)%F; [right; left; reflexivity|].
  destruct (IsValid model); simpl.
  - right; right; right. split; [reflexivity|]. eexists. reflexivity.
  - right; right; left. split; reflexivity.
Qed.

Lemma Analyze_error_kinds (qa : QueueAnalyzer F) (r : F) (w : World F M)
    (e : error) :
  fst (Analyze qa r w) = Err e ->
  e = InvalidRate \/ e = RateOutOfRange \/ e = ModelDivergence.
Proof.
  destruct (Analyze_split qa r w)
    as [Ha|[Ha|[[Hv Ha]|[Hv [m Ha]]]]]; rewrite Ha; cbn [fst];
    intro He; try discriminate; injection He as <-; tauto.
Qed.

(** X5.  What [Analyze] does to the world: a rate refused by one of the
    two rate tests leaves everything untouched; any other call leaves the
    model solved at [requestRate / 1000], invalid when the error is the
    model's and valid on success; the package variables are never
    written; and [Analyze] has no other error than these three. *)
Theorem Analyze_effect (qa : QueueAnalyzer F) (r : F) (w : World F M) :
  let res := fst (Analyze qa r w) in
  let w' := snd (Analyze qa r w) in
  (forall e, res = Err e ->
     e = InvalidRate \/ e = RateOutOfRange \/ e = ModelDivergence) /\
  (res = Err InvalidRate \/ res = Err RateOutOfRange -> w' = w) /\
  (res = Err ModelDivergence \/ (exists metrics, res = Ok metrics) ->
     Model w' = Solve (r / thousand)%F one (Model w)) /\
  (res = Err ModelDivergence -> IsValid (Model w') = false) /\
  ((exists metrics, res = Ok metrics) -> IsValid (Model w') = true) /\
  evalRequestSize w' = evalRequestSize w /\
  evalServiceParms w' = evalServiceParms w /\
  evalMaxBatchSize w' = evalMaxBatchSize w.
Proof.
  intros res w'. subst res w'.
  destruct (Analyze_split qa r w)
    as [Ha|[Ha|[[Hv Ha]|[Hv [m Ha]]]]]; rewrite Ha; cbn [fst snd].
  - repeat split; try reflexivity.
    + intros e He. injection He as <-. tauto.
    + intros [Hx|[m' Hx]]; discriminate.
    + discriminate.
    + intros [m' Hx]; discriminate.
  - repeat split; try reflexivity.
    + intros e He. injection He as <-. tauto.
    + intros [Hx|[m' Hx]]; discriminate.
    + discriminate.
    + intros [m' Hx]; discriminate.
  - repeat split; try reflexivity.
    + intros e He. injection He as <-. tauto.
    + intros [Hx|Hx]; discriminate.
    + intros _. exact Hv.
    + intros [m' Hx]; discriminate.
  - repeat split; try reflexivity.
    + intros e He. discriminate.
    + intros [Hx|Hx]; discriminate.
    + discriminate.
    + intros _. exact Hv.
Qed.

(** X6.  Once the package variables hold the analyzer's data, the search
    callbacks compute what [Size] reports: where [Analyze] succeeds at
    [requestRate], [EvalTTFT] and [EvalITL] at [requestRate / 1000] return
    the achieved TTFT and ITL of its metrics and leave the same world;
    where [Analyze] fails on the model, both callbacks return 0 with that
    error. *)
Theorem Eval_agrees_with_Analyze (qa : QueueAnalyzer F) (r : F)
    (w w' : World F M) :
  globalsOf qa w ->
  (forall metrics : AnalysisMetrics F,
     Analyze qa r w = (Ok metrics, w') ->
     EvalTTFT (r / thousand)%F w
       = ((TargetTTFT (achievedOf qa metrics), None), w') /\
     EvalITL (r / thousand)%F w
       = ((TargetITL (achievedOf qa metrics), None), w')) /\
  (Analyze qa r w = (Err ModelDivergence, w') ->
     EvalTTFT (r / thousand)%F w = ((zero, Some ModelDivergence), w') /\
     EvalITL (r / thousand)%F w = ((zero, Some ModelDivergence), w')).
Proof.
  intros (Hrs & Hsp & Hmb). split.
  - intros metrics Ha. unfold Analyze in Ha.
    destruct (r <=? zero)%F; [discriminate|].
    destruct (Max (qa_RateRange qa) <? r)%F; [discriminate|].
    destruct (IsValid (Solve (r / thousand)%F one (Model w))) eqn:Hv;
      cbn [negb] in Ha; [|discriminate].
    injection Ha as Hm Hw. subst metrics w'.
    unfold EvalTTFT, EvalITL, achievedOf.
    cbn [TargetTTFT TargetITL AvgWaitTime AvgPrefillTime AvgTokenTime].
    rewrite Hv. cbn [negb].
    unfold setModel.
    cbn [evalRequestSize evalServiceParms evalMaxBatchSize Model].
    rewrite Hrs, Hsp, Hmb. split; reflexivity.
  - intro Ha.
    destruct (Analyze_split qa r w)
      as [Hx|[Hx|[[Hv Hx]|[Hv [m Hx]]]]]; rewrite Hx in Ha;
      try discriminate.
    injection Ha as Hw. subst w'.
    unfold EvalTTFT, EvalITL. rewrite Hv. split; reflexivity.
Qed.
Lemma Size_TTFT_errors (qa : QueueAnalyzer F) (tp : TargetPerf F)
    (w w' : World F M) (e : error) :
  Size_TTFT qa tp w = (Err e, w') ->
  exists ind cause,
    e = FailedLambdaStarTTFT ind cause /\
    (ind < 0 -> cause = TargetBelowRegion).
Proof.
  unfold Size_TTFT.
  destruct (zero <? TargetTTFT tp)%F; [|discriminate].
  destruct (BinarySearch _ _ _ _ w) as [[[x ind] err] w1].
  destruct (ind <? 0) eqn:Hneg.
  - intro Hx. injection Hx as <- _. exists ind, TargetBelowRegion.
    split; [reflexivity | tauto].
  - destruct err as [e0|]; [|discriminate].
    intro Hx. injection Hx as <- _. exists ind, e0.
    split; [reflexivity | lia].
Qed.

Lemma Size_ITL_errors (qa : QueueAnalyzer F) (tp : TargetPerf F)
    (w w' : World F M) (e : error) :
  Size_ITL qa tp w = (Err e, w') ->
  exists ind cause,
    e = FailedLambdaStarITL ind cause /\
    (ind < 0 -> cause = TargetBelowRegion).
Proof.
  unfold Size_ITL.
  destruct (zero <? TargetITL tp)%F; [|discriminate].
  destruct (BinarySearch _ _ _ _ w) as [[[x ind] err] w1].
  destruct (ind <? 0) eqn:Hneg.
  - intro Hx. injection Hx as <- _. exists ind, TargetBelowRegion.
    split; [reflexivity | tauto].
  - destruct err as [e0|]; [|discriminate].
    intro Hx. injection Hx as <- _. exists ind, e0.
    split; [reflexivity | lia].
Qed.

Lemma Size_rates_errors (qa : QueueAnalyzer F) (tp : TargetPerf F)
    (w w' : World F M) (e : error) :
  Size_rates qa tp w = (Err e, w') ->
  exists ind cause,
    (e = FailedLambdaStarTTFT ind cause \/ e = FailedLambdaStarITL ind cause) /\
    (ind < 0 -> cause = TargetBelowRegion).
Proof.
  unfold Size_rates, bind.
  destruct (Size_TTFT qa tp (setEvalGlobals qa w)) as [[lT|e1] w1] eqn:Ht.
  - destruct (Size_ITL qa tp w1) as [[lI|e2] w2] eqn:Hi.
    + discriminate.
    + intro Hx. injection Hx as <- _.
      destruct (Size_ITL_errors _ _ _ _ _ Hi) as (ind & cause & -> & Hc).
      exists ind, cause. tauto.
  - intro Hx. injection Hx as <- _.
    destruct (Size_TTFT_errors _ _ _ _ _ Ht) as (ind & cause & -> & Hc).
    exists ind, cause. tauto.
Qed.

Lemma TargetPerf_check_error (tp : TargetPerf F) :
  TargetPerf_check tp = None \/ TargetPerf_check tp = Some InvalidTarget.
Proof.
  unfold TargetPerf_check.
  destruct (_ || _ || _); [right | left]; reflexivity.
Qed.

(** X7.  Every error of [Size] is the invalid-target error, a
    "failed to calculate lambdaStar..." error around a cause, or one of
    the three errors of [Analyze]; an error of the search never comes out
    unwrapped, and with a negative indicator the cause is "target is
    below the bounded region" whatever the search itself reported. *)
Theorem Size_errors (qa : QueueAnalyzer F) (tp : TargetPerf F)
    (w : World F M) (e : error) :
  fst (Size qa tp w) = Err e ->
  e = InvalidTarget \/
  (exists ind cause,
     (e = FailedLambdaStarTTFT ind cause \/ e = FailedLambdaStarITL ind cause) /\
     (ind < 0 -> cause = TargetBelowRegion)) \/
  e = InvalidRate \/ e = RateOutOfRange \/ e = ModelDivergence.
Proof.
  destruct (TargetPerf_check_error tp) as [Hc|Hc].
  - destruct (Size_rates qa tp w) as [[[[lT lI] lP]|e1] w1] eqn:Hr.
    + rewrite (Size_unfold qa tp w w1 lT lI lP Hc Hr).
      pose proof (Analyze_error_kinds qa (chosenRate lT lI lP) w1) as Herr.
      destruct (Analyze qa (chosenRate lT lI lP) w1) as [[m|e1] w2];
        cbn [fst] in *; [discriminate|].
      intro Hx. injection Hx as <-.
      destruct (Herr e1 eq_refl) as [->|[->| ->]]; tauto.
    + rewrite (Size_rates_error qa tp w w1 e1 Hc Hr). cbn [fst].
      intro Hx. injection Hx as <-.
      right; left. exact (Size_rates_errors _ _ _ _ _ Hr).
  - unfold Size. rewrite Hc. cbn [fst]. intro Hx. injection Hx as <-.
    left; reflexivity.
Qed.

(** X8.  [Size] fails with the invalid-target error exactly when one of
    the three targets is below 0, and then it has touched nothing: no
    package variable written, no model solved. *)
Theorem Size_InvalidTarget_iff (qa : QueueAnalyzer F) (tp : TargetPerf F)
    (w : World F M) :
  (fst (Size qa tp w) = Err InvalidTarget <->
   (TargetITL tp <? zero)%F || (TargetTTFT tp <? zero)%F
   || (TargetTPS tp <? zero)%F = true) /\
  (fst (Size qa tp w) = Err InvalidTarget -> snd (Size qa tp w) = w).
Proof.
  assert (Hiff : fst (Size qa tp w) = Err InvalidTarget <->
                 TargetPerf_check tp = Some InvalidTarget).
  { split.
    - intro Hs. destruct (TargetPerf_check_error tp) as [Hc|Hc]; [|exact Hc].
      exfalso.
      destruct (Size_rates qa tp w) as [[[[lT lI] lP]|e1] w1] eqn:Hr.
      + rewrite (Size_unfold qa tp w w1 lT lI lP Hc Hr) in Hs.
        pose proof (Analyze_error_kinds qa (chosenRate lT lI lP) w1)
          as Herr.
        destruct (Analyze qa (chosenRate lT lI lP) w1) as [[m|e1] w2];
          cbn [fst] in *; [discriminate|].
        injection Hs as ->.
        destruct (Herr InvalidTarget eq_refl) as [Hx|[Hx|Hx]]; discriminate.
      + rewrite (Size_rates_error qa tp w w1 e1 Hc Hr) in Hs.
        cbn [fst] in Hs. injection Hs as ->.
        destruct (Size_rates_errors _ _ _ _ _ Hr)
          as (ind & cause & [Hx|Hx] & _); discriminate.
    - intro Hc. unfold Size. rewrite Hc. reflexivity. }
  split.
  - rewrite Hiff. unfold TargetPerf_check.
    destruct (_ || _ || _); split; intro Hx; congruence.
  - intro Hs. apply Hiff in Hs. unfold Size. rewrite Hs. reflexivity.
Qed.

Lemma Size_TTFT_same (qa : QueueAnalyzer F) (tp tp' : TargetPerf F)
    (w : World F M) :
  same_constraints tp tp' -> Size_TTFT qa tp w = Size_TTFT qa tp' w.
Proof.
  intros ((Hb & Hv) & _ & _). unfold Size_TTFT. rewrite <- Hb.
  destruct (zero <? TargetTTFT tp)%F; [|reflexivity].
  rewrite <- (Hv eq_refl). reflexivity.
Qed.

Lemma Size_ITL_same (qa : QueueAnalyzer F) (tp tp' : TargetPerf F)
    (w : World F M) :
  same_constraints tp tp' -> Size_ITL qa tp w = Size_ITL qa tp' w.
Proof.
  intros (_ & (Hb & Hv) & _). unfold Size_ITL. rewrite <- Hb.
  destruct (zero <? TargetITL tp)%F; [|reflexivity].
  rewrite <- (Hv eq_refl). reflexivity.
Qed.

(** X9.  [Size] reads a latency target only where it is above 0 and the
    throughput target only through its being above 0: two accepted
    targets that constrain the same objectives in the same way give the
    same result and the same world, whatever the values of the targets
    that are not above 0 and whatever the positive throughput target. *)
Theorem Size_same_constraints (qa : QueueAnalyzer F) (tp tp' : TargetPerf F)
    (w : World F M) :
  TargetPerf_check tp = None ->
  TargetPerf_check tp' = None ->
  same_constraints tp tp' ->
  Size qa tp w = Size qa tp' w.
Proof.
  intros Hc Hc' Hs.
  assert (Hr : Size_rates qa tp w = Size_rates qa tp' w).
  { unfold Size_rates, bind.
    rewrite (Size_TTFT_same qa tp tp' _ Hs).
    destruct (Size_TTFT qa tp' (setEvalGlobals qa w)) as [[lT|e] w1];
      [|reflexivity].
    rewrite (Size_ITL_same qa tp tp' _ Hs).
    destruct (Size_ITL qa tp' w1) as [[lI|e] w2]; [|reflexivity].
    unfold Size_TPS. destruct Hs as (_ & _ & Hp). rewrite Hp. reflexivity. }
  destruct (Size_rates qa tp w) as [[[[lT lI] lP]|e] w1] eqn:Hr1.
  - rewrite (Size_unfold qa tp w w1 lT lI lP Hc Hr1).
    rewrite (Size_unfold qa tp' w w1 lT lI lP Hc' (eq_sym Hr)).
    reflexivity.
  - rewrite (Size_rates_error qa tp w w1 e Hc Hr1).
    rewrite (Size_rates_error qa tp' w w1 e Hc' (eq_sym Hr)).
    reflexivity.
Qed.
End AnalyzeExtras.

(* ================================================================== *)
(** * Further properties: binary32 *)
(* ================================================================== *)

Module F32Sign.

Lemma nonneg32_leb (x : float32) : nonneg32 x <-> F32.leb (F32.of_Z 0) x = true.
Proof.
  destruct x as [s|s| |s m e]; simpl; split; intro Hx;
    try reflexivity; try exact I; try discriminate; try contradiction;
    try (subst s; reflexivity); destruct s; try reflexivity; discriminate.
Qed.

Lemma shr_1_nonneg (mrs : shr_record) :
  0 <= shr_m mrs -> 0 <= shr_m (shr_1 mrs).
Proof.
  destruct mrs as [m r s]. simpl.
  destruct m as [|p|p]; intro Hm.
  - simpl. lia.
  - destruct p as [p|p|]; simpl; lia.
  - simpl in Hm. lia.
Qed.

Lemma iter_shr_1_nonneg (p : positive) (mrs : shr_record) :
  0 <= shr_m mrs -> 0 <= shr_m (SpecFloat.iter_pos shr_1 p mrs).
Proof.
  revert mrs. induction p as [p IH|p IH|]; intros mrs Hm; simpl.
  - apply IH, IH, shr_1_nonneg, Hm.
  - apply IH, IH, Hm.
  - apply shr_1_nonneg, Hm.
Qed.

Lemma shr_fexp_nonneg (m e : Z) (l : location) :
  0 <= m -> 0 <= shr_m (fst (shr_fexp F32.prec F32.emax m e l)).
Proof.
  intro Hm. unfold shr_fexp, shr.
  assert (H0 : 0 <= shr_m (shr_record_of_loc m l)).
  { destruct l as [|[| |]]; simpl; exact Hm. }
  destruct (fexp F32.prec F32.emax (Zdigits2 m + e) - e) as [|p|p];
    simpl; try exact H0.
  apply iter_shr_1_nonneg, H0.
Qed.

Lemma round_nearest_even_nonneg (m : Z) (l : location) :
  0 <= m -> 0 <= round_nearest_even m l.
Proof.
  intro Hm. destruct l as [|[| |]]; simpl; try lia.
  destruct (Z.even m); lia.
Qed.

Lemma binary_round_aux_nonneg (m e : Z) (l : location) :
  0 <= m -> nonneg32 (binary_round_aux F32.prec F32.emax false m e l).
Proof.
  intro Hm. unfold binary_round_aux.
  pose proof (shr_fexp_nonneg m e l Hm) as H1.
  destruct (shr_fexp F32.prec F32.emax m e l) as [mrs' e'].
  cbn [fst] in H1.
  pose proof (shr_fexp_nonneg
                (round_nearest_even (shr_m mrs') (loc_of_shr_record mrs'))
                e' loc_Exact
                (round_nearest_even_nonneg _ _ H1)) as H2.
  destruct (shr_fexp F32.prec F32.emax _ e' loc_Exact) as [mrs'' e''].
  cbn [fst] in H2.
  destruct (shr_m mrs'') as [|p|p]; simpl; try exact I; try lia.
  destruct (e'' <=? F32.emax - F32.prec); reflexivity.
Qed.

(** [float32(n)] of an [n >= 0] is not negative and not a NaN. *)
Lemma of_Z_nonneg (z : Z) : 0 <= z -> nonneg32 (F32.of_Z z).
Proof.
  intro Hz. unfold F32.of_Z, binary_normalize.
  destruct z as [|p|p]; [exact I | | lia].
  unfold binary_round.
  destruct (shl_align p 0 _) as [mz ez].
  apply binary_round_aux_nonneg. lia.
Qed.

End F32Sign.

Section Float32Extras.
Context {M : Type} `{QueueModel float32 M} `{RootFinder float32 M}.
Import F32Facts.

Lemma ltb_nan_l (x y : float32) : F32.is_nan x = true -> F32.ltb x y = false.
Proof. destruct x; try discriminate. reflexivity. Qed.

Lemma ltb_nan_r (x y : float32) : F32.is_nan y = true -> F32.ltb x y = false.
Proof. destruct y; try discriminate. destruct x; reflexivity. Qed.

Lemma leb_nan_l (x y : float32) : F32.is_nan x = true -> F32.leb x y = false.
Proof. destruct x; try discriminate. reflexivity. Qed.

Lemma leb_nan_r (x y : float32) : F32.is_nan y = true -> F32.leb x y = false.
Proof. destruct y; try discriminate. destruct x; reflexivity. Qed.

Lemma rate_tests_iff (qa : QueueAnalyzer float32) (r : float32) :
  (r <=? zero)%F = false /\ (Max (qa_RateRange qa) <? r)%F = false
  <-> accepted qa r.
Proof.
  unfold accepted. set (mx := Max (qa_RateRange qa)).
  change (@leb float32 _) with F32.leb. change (@ltb float32 _) with F32.ltb.
  change (@zero float32 _) with (F32.of_Z 0).
  destruct (F32.is_nan r) eqn:Hr.
  - split; [intros _; left; reflexivity|]. intros _.
    split; [apply leb_nan_l, Hr | apply ltb_nan_r, Hr].
  - destruct (F32.is_nan mx) eqn:Hm.
    + rewrite (ltb_nan_l mx r Hm), (leb_nan_r r mx Hm).
      rewrite (leb_zero_iff r Hr). split.
      * intros [Hp _]. right. split; [exact Hp | right; reflexivity].
      * intros [Hx|[Hp _]]; [discriminate | split; [exact Hp | reflexivity]].
    + rewrite (leb_zero_iff r Hr), (leb_negb_ltb r mx Hr Hm).
      destruct (F32.ltb mx r); simpl; split.
      * intros [_ Hx]; discriminate.
      * intros [Hx|[_ [Hx|Hx]]]; discriminate.
      * intros [Hp _]. right. split; [exact Hp | left; reflexivity].
      * intros [Hx|[Hp _]]; [discriminate | split; [exact Hp | reflexivity]].
Qed.

(** X10.  At binary32 [Analyze] succeeds exactly when the solved model is
    valid and the rate is a NaN, or is above 0 and not above
    [rateRange.Max], or is above 0 while [rateRange.Max] is a NaN: the two
    rate tests let a NaN rate through, and a NaN ceiling refuses
    nothing. *)
Theorem Analyze_succeeds_iff (qa : QueueAnalyzer float32) (r : float32)
    (w : World float32 M) :
  (exists metrics, fst (Analyze qa r w) = Ok metrics) <->
  accepted qa r /\ IsValid (Solve (r / thousand)%F one (Model w)) = true.
Proof.
  rewrite <- rate_tests_iff.
  destruct (Analyze_cases qa r w)
    as [[Hle Ha]|[(Hle & Hlt & Ha)|[(Hle & Hlt & Hv & Ha)|(Hle & Hlt & Hv & m & Ha)]]];
    rewrite Ha; cbn [fst]; split;
    try (intros [m' Hx]; discriminate);
    try (intros [[Hx Hy] Hz]; congruence).
  - intros _. repeat split; assumption.
  - intros _. exists m. reflexivity.
Qed.

(** X11.  For [maxBatchSize >= 0] the result of [EffectiveConcurrency] is
    NaN when the quotient it clamps is NaN, and otherwise lies between 0
    and [float32(maxBatchSize)]. *)
Theorem EffectiveConcurrency_nan_or_clamped (avgServiceTime : float32)
    (parms : ServiceParms float32) (rq : RequestSize) (maxBatchSize : Z) :
  0 <= maxBatchSize ->
  let tokens : float32 := ofInt (int_sub (AvgOutputTokens rq) 1) in
  let n := ((avgServiceTime
             - (Gamma (Prefill parms) + Alpha (Decode parms) * tokens))
            / concurrencyDenominator parms rq)%F in
  let effConc := EffectiveConcurrency avgServiceTime parms rq maxBatchSize in
  (F32.is_nan n = true -> effConc = F32.NaN) /\
  (F32.is_nan n = false ->
   (zero <=? effConc)%F = true /\ (effConc <=? ofInt maxBatchSize)%F = true).
Proof.
  intros Hb tokens n effConc.
  assert (Hmb : ((zero : float32) <=? ofInt maxBatchSize)%F = true).
  { apply F32Sign.nonneg32_leb, F32Sign.of_Z_nonneg, Hb. }
  split.
  - intro Hn. unfold effConc, EffectiveConcurrency. fold tokens. fold n.
    destruct n; try discriminate. apply clamp_nan.
  - intro Hn.
    exact (EffectiveConcurrency_in_range avgServiceTime parms rq maxBatchSize
             Hn Hmb).
Qed.

(** X12.  The utilization of a successful [Analyze] is NaN when
    [avgNumInServ / float32(MaxBatchSize)] is NaN, and otherwise lies
    between 0 and 1. *)
Theorem Rho_nan_or_clamped (qa : QueueAnalyzer float32) (r : float32)
    (w w' : World float32 M) (metrics : AnalysisMetrics float32) :
  Analyze qa r w = (Ok metrics, w') ->
  let share := (AvgNumInServ metrics / ofInt (qa_MaxBatchSize qa))%F in
  (F32.is_nan share = true -> Rho metrics = F32.NaN) /\
  (F32.is_nan share = false ->
   (zero <=? Rho metrics)%F = true /\ (Rho metrics <=? one)%F = true).
Proof.
  intros Ha share. split.
  - intro Hn.
    destruct (Analyze_ok qa r w w' metrics Ha) as (_ & _ & Hs & _ & _ & Hrho).
    rewrite Hrho, <- Hs. fold share.
    destruct share; try discriminate. apply clamp_nan.
  - intro Hn. exact (Rho_in_range qa r w w' metrics Ha Hn).
Qed.

Lemma div_by_zero (x d : float32) :
  F32.is_zero d = true ->
  F32.div x d = F32.NaN \/
  F32.div x d = S754_infinity false \/ F32.div x d = S754_infinity true.
Proof.
  destruct d as [sd| | |]; try discriminate. intros _.
  destruct x as [sx|sx| |sx mx ex]; simpl; auto;
    destruct (xorb sx sd); auto.
Qed.

Lemma clamp_infinity (s : bool) (b : float32) :
  nonneg32 b ->
  F32.fmin (F32.fmax (S754_infinity s) (F32.of_Z 0)) b
  = if s then F32.fmin (F32.of_Z 0) b else b.
Proof.
  intro Hb. destruct s; [reflexivity|].
  destruct b as [sb|sb| |sb mb eb]; simpl in Hb; try contradiction;
    try subst sb; reflexivity.
Qed.

Lemma fmin_zero_nonneg (b : float32) :
  nonneg32 b ->
  F32.is_zero (F32.fmin (F32.of_Z 0) b) = true.
Proof.
  intro Hb. destruct b as [sb|sb| |sb mb eb]; simpl in Hb; try contradiction;
    try subst sb; reflexivity.
Qed.

(** X13.  Where the divisor of [EffectiveConcurrency] is 0 (costs that do
    not depend on the batch size, or no input token and one output
    token), its result carries no information about the service time: it
    is NaN, 0 or [float32(maxBatchSize)]. *)
Theorem EffectiveConcurrency_zero_divisor (avgServiceTime : float32)
    (parms : ServiceParms float32) (rq : RequestSize) (maxBatchSize : Z) :
  0 <= maxBatchSize ->
  F32.is_zero (concurrencyDenominator parms rq) = true ->
  let effConc := EffectiveConcurrency avgServiceTime parms rq maxBatchSize in
  effConc = F32.NaN \/ F32.is_zero effConc = true \/
  effConc = ofInt maxBatchSize.
Proof.
  intros Hb Hd effConc. unfold effConc, EffectiveConcurrency.
  change (@fmin float32 _) with F32.fmin. change (@fmax float32 _) with F32.fmax.
  change (@div float32 _) with F32.div.
  change (@zero float32 _) with (F32.of_Z 0).
  change (@ofInt float32 _) with F32.of_Z.
  pose proof (F32Sign.of_Z_nonneg maxBatchSize Hb) as Hn.
  match goal with
  | |- context [F32.div ?x ?d] =>
      destruct (div_by_zero x d Hd) as [Hq|[Hq|Hq]]; rewrite Hq
  end.
  - left. apply clamp_nan.
  - right; right. rewrite (clamp_infinity false _ Hn). reflexivity.
  - right; left. rewrite (clamp_infinity true _ Hn).
    apply fmin_zero_nonneg, Hn.
Qed.
End Float32Extras.

(* ================================================================== *)
(** * Further properties: exact arithmetic *)
(* ================================================================== *)

Module ExactExtras.
Local Open Scope Q_scope.

Lemma Qle_bool_false (x y : Q) : Qle_bool x y = false <-> y < x.
Proof.
  split.
  - intro Hb. apply Qnot_le_lt. intro Hle. apply Qle_bool_iff in Hle.
    congruence.
  - intro Hlt. destruct (Qle_bool x y) eqn:Hb; [|reflexivity].
    apply Qle_bool_iff in Hb. lra.
Qed.

Lemma Qltb_true (x y : Q) : Qltb x y = true <-> x < y.
Proof.
  unfold Qltb. rewrite negb_true_iff. apply Qle_bool_false.
Qed.

Lemma Qltb_false (x y : Q) : Qltb x y = false <-> y <= x.
Proof.
  unfold Qltb. rewrite negb_false_iff. apply Qle_bool_iff.
Qed.

(** [min(max(x, 0), b)] in exact arithmetic. *)
Lemma clamp_spec (x b : Q) :
  0 <= b ->
  let c := Qfmin (Qfmax x 0) b in
  0 <= c <= b /\
  (x <= 0 -> c == 0) /\ (b <= x -> c == b) /\ (0 <= x <= b -> c == x).
Proof.
  intros Hb c. unfold c, Qfmin, Qfmax.
  destruct (Qltb x 0) eqn:H0.
  - apply Qltb_true in H0.
    destruct (Qltb b 0) eqn:H1;
      [apply Qltb_true in H1 | apply Qltb_false in H1];
      repeat split; intros; lra.
  - apply Qltb_false in H0.
    destruct (Qltb b x) eqn:H1;
      [apply Qltb_true in H1 | apply Qltb_false in H1];
      repeat split; intros; lra.
Qed.

Lemma clamp_monotone (x y b : Q) :
  x <= y -> Qfmin (Qfmax x 0) b <= Qfmin (Qfmax y 0) b.
Proof.
  intro Hxy. unfold Qfmin, Qfmax.
  destruct (Qltb x 0) eqn:Hx; [apply Qltb_true in Hx | apply Qltb_false in Hx];
  destruct (Qltb y 0) eqn:Hy; [apply Qltb_true in Hy | apply Qltb_false in Hy
                              |apply Qltb_true in Hy | apply Qltb_false in Hy];
  repeat match goal with
         | |- context [Qltb ?a ?c] =>
             let E := fresh "E" in
             destruct (Qltb a c) eqn:E;
             [apply Qltb_true in E | apply Qltb_false in E]
         end; lra.
Qed.

Section Concurrency.
Variable parms : ServiceParms Q.
Variable rq : RequestSize.
Variable maxBatchSize : Z.
Hypothesis Hden : 0 < concurrencyDenominator parms rq.
Hypothesis Hmb : (0 <= maxBatchSize)%Z.

Lemma quotient_le (t1 t2 : Q) :
  t1 <= t2 ->
  (t1 - concurrencyBase parms rq) / concurrencyDenominator parms rq
  <= (t2 - concurrencyBase parms rq) / concurrencyDenominator parms rq.
Proof.
  intro Ht. apply Qle_shift_div_l; [exact Hden|].
  assert (He : (t1 - concurrencyBase parms rq) / concurrencyDenominator parms rq
               * concurrencyDenominator parms rq == t1 - concurrencyBase parms rq)
    by (field; lra).
  rewrite He. lra.
Qed.

End Concurrency.

Section Stability.
Context {M : Type} `{QueueModel Q M} `{RootFinder Q M}.


End Stability.
End ExactExtras.

(* ================================================================== *)
(** * Further properties: rendering *)
(* ================================================================== *)

Section Rendering.
Local Open Scope string_scope.

Lemma format_int_inj (z z' : Z) : format_int z = format_int z' -> z = z'.
Proof.
  unfold format_int. intro Heq.
  assert (Hnn : forall n, Z.to_int n <> Pos Nil /\ Z.to_int n <> Neg Nil).
  { intros [|p|p]; simpl; split; intro Hx; try discriminate;
      injection Hx as Hx; exact (DecimalPos.Unsigned.to_uint_nonnil p Hx). }
  apply DecimalZ.to_int_inj.
  assert (Hs : Some (Z.to_int z) = Some (Z.to_int z')).
  { rewrite <- (NilZero.isi (Z.to_int z)) by apply Hnn.
    rewrite <- (NilZero.isi (Z.to_int z')) by apply Hnn.
    rewrite Heq. reflexivity. }
  injection Hs as Hs. exact Hs.
Qed.

Lemma absent_uint (c : ascii) (d : uint) :
  (c = "," \/ c = "}")%char -> absent c (NilEmpty.string_of_uint d).
Proof.
  intro Hc. induction d; simpl; try exact I;
    (split; [destruct Hc as [-> | ->]; discriminate | exact IHd]).
Qed.

Lemma absent_format_int (c : ascii) (z : Z) :
  (c = "," \/ c = "}")%char -> absent c (format_int z).
Proof.
  intro Hc. unfold format_int.
  assert (Hu : forall d, absent c (NilZero.string_of_uint d)).
  { intro d. destruct d; try apply (absent_uint c _ Hc).
    simpl. split; [destruct Hc as [-> | ->]; discriminate | exact I]. }
  destruct (Z.to_int z) as [d|d]; simpl; [apply Hu|].
  split; [destruct Hc as [-> | ->]; discriminate | apply Hu].
Qed.

(** Two strings cut at the first occurrence of a separator. *)
Lemma append_separator_inj (c : ascii) (a a' r r' : string) :
  absent c a -> absent c a' ->
  a ++ String c r = a' ++ String c r' -> a = a' /\ r = r'.
Proof.
  revert a'. induction a as [|x a IH]; intros [|x' a'] Ha Ha' Heq; simpl in *.
  - injection Heq as Hr. split; [reflexivity | exact Hr].
  - injection Heq as Hx _. destruct Ha' as [Hne _]. congruence.
  - injection Heq as Hx _. destruct Ha as [Hne _]. congruence.
  - injection Heq as Hx Hrest. destruct Ha as [_ Ha], Ha' as [_ Ha'].
    destruct (IH a' Ha Ha' Hrest) as [-> ->]. subst. split; reflexivity.
Qed.

(** X17.  [RequestSize.String] is unambiguous: two request sizes are
    rendered as the same string exactly when they are equal. *)
Theorem RequestSize_String_inj (rq rq' : RequestSize) :
  RequestSize_String rq = RequestSize_String rq' <-> rq = rq'.
Proof.
  split; [|intros ->; reflexivity].
  destruct rq as [i o], rq' as [i' o']. unfold RequestSize_String.
  cbn [AvgInputTokens AvgOutputTokens]. intro Heq.
  simpl in Heq. injection Heq as Heq.
  apply (append_separator_inj ","%char) in Heq;
    try (apply absent_format_int; left; reflexivity).
  destruct Heq as [Hi Hrest]. simpl in Hrest. injection Hrest as Hrest.
  apply (append_separator_inj "}"%char) in Hrest;
    try (apply absent_format_int; right; reflexivity).
  destruct Hrest as [Ho _].
  apply format_int_inj in Hi, Ho. subst. reflexivity.
Qed.
End Rendering.

(* ================================================================== *)
(** * The further properties on concrete inputs *)
(* ================================================================== *)

Module MoreInstances.
Import Reference Inputs MoreInputs.



Lemma Eval_agrees_with_Analyze_witness :
  globalsOf scenario scenarioWorld /\
  exists (metrics : AnalysisMetrics float32) (w' : World float32 (MM1 float32)),
    Analyze scenario one scenarioWorld = (Ok metrics, w') /\
    EvalTTFT (one / thousand)%F scenarioWorld
      = ((TargetTTFT (achievedOf scenario metrics), None), w') /\
    EvalITL (one / thousand)%F scenarioWorld
      = ((TargetITL (achievedOf scenario metrics), None), w').
Proof.
  assert (Hg : globalsOf scenario scenarioWorld) by (repeat split).
  split; [exact Hg|].
  eexists _, _.
  refine ((fun Ha => conj Ha
             (proj1 (Eval_agrees_with_Analyze scenario one scenarioWorld _ Hg)
                _ Ha)) _).
  vm_compute. reflexivity.
Defined.

Lemma Size_errors_witness :
  fst (Size scenario hastyTTFT scenarioWorld)
    = Err (FailedLambdaStarTTFT (-1) TargetBelowRegion) /\
  (FailedLambdaStarTTFT (-1) TargetBelowRegion = InvalidTarget \/
   (exists ind cause,
      (FailedLambdaStarTTFT (-1) TargetBelowRegion
         = FailedLambdaStarTTFT ind cause \/
       FailedLambdaStarTTFT (-1) TargetBelowRegion
         = FailedLambdaStarITL ind cause) /\
      (ind < 0 -> cause = TargetBelowRegion)) \/
   FailedLambdaStarTTFT (-1) TargetBelowRegion = InvalidRate \/
   FailedLambdaStarTTFT (-1) TargetBelowRegion = RateOutOfRange \/
   FailedLambdaStarTTFT (-1) TargetBelowRegion = ModelDivergence).
Proof.
  assert (Hs : fst (Size scenario hastyTTFT scenarioWorld)
               = Err (FailedLambdaStarTTFT (-1) TargetBelowRegion))
    by (vm_compute; reflexivity).
  split; [exact Hs|].
  exact (Size_errors scenario hastyTTFT scenarioWorld _ Hs).
Defined.

Lemma Size_same_constraints_witness :
  same_constraints someTargets otherTPS /\
  Size scenario someTargets scenarioWorld = Size scenario otherTPS scenarioWorld.
Proof.
  assert (Hs : same_constraints someTargets otherTPS).
  { repeat split; try reflexivity; intros _; reflexivity. }
  split; [exact Hs|].
  apply Size_same_constraints; [reflexivity | reflexivity | exact Hs].
Defined.

Lemma EffectiveConcurrency_nan_or_clamped_witness :
  (F32.is_nan
     ((ofInt 2233
       - (Gamma (Prefill scenarioParms)
          + Alpha (Decode scenarioParms)
            * ofInt (int_sub (AvgOutputTokens scenarioSize) 1)))
      / concurrencyDenominator scenarioParms scenarioSize)%F = true ->
   EffectiveConcurrency (ofInt 2233) scenarioParms scenarioSize 4 = F32.NaN) /\
  (F32.is_nan
     ((ofInt 2233
       - (Gamma (Prefill scenarioParms)
          + Alpha (Decode scenarioParms)
            * ofInt (int_sub (AvgOutputTokens scenarioSize) 1)))
      / concurrencyDenominator scenarioParms scenarioSize)%F = false ->
   (zero <=? EffectiveConcurrency (ofInt 2233) scenarioParms scenarioSize 4)%F
     = true /\
   (EffectiveConcurrency (ofInt 2233) scenarioParms scenarioSize 4
      <=? ofInt 4)%F = true).
Proof.
  assert (Hb : 0 <= 4) by lia.
  exact (EffectiveConcurrency_nan_or_clamped (ofInt 2233) scenarioParms
           scenarioSize 4 Hb).
Defined.

Lemma Rho_nan_or_clamped_witness :
  exists (metrics : AnalysisMetrics float32) (w' : World float32 (MM1 float32)),
    Analyze scenario one scenarioWorld = (Ok metrics, w') /\
    (F32.is_nan (AvgNumInServ metrics / ofInt (qa_MaxBatchSize scenario))%F
       = true -> Rho metrics = F32.NaN) /\
    (F32.is_nan (AvgNumInServ metrics / ofInt (qa_MaxBatchSize scenario))%F
       = false ->
     (zero <=? Rho metrics)%F = true /\ (Rho metrics <=? one)%F = true).
Proof.
  eexists _, _.
  refine ((fun Ha => conj Ha
             (Rho_nan_or_clamped scenario one scenarioWorld _ _ Ha)) _).
  vm_compute. reflexivity.
Defined.

Lemma EffectiveConcurrency_zero_divisor_witness :
  F32.is_zero (concurrencyDenominator constantParms scenarioSize) = true /\
  (EffectiveConcurrency (ofInt 2030) constantParms scenarioSize 4 = F32.NaN \/
   F32.is_zero (EffectiveConcurrency (ofInt 2030) constantParms scenarioSize 4)
     = true \/
   EffectiveConcurrency (ofInt 2030) constantParms scenarioSize 4 = ofInt 4).
Proof.
  assert (Hb : 0 <= 4) by lia.
  assert (Hd : F32.is_zero (concurrencyDenominator constantParms scenarioSize)
               = true) by (vm_compute; reflexivity).
  split; [exact Hd|].
  exact (EffectiveConcurrency_zero_divisor (ofInt 2030) constantParms
           scenarioSize 4 Hb Hd).
Defined.




End MoreInstances.
